(** * WinMerge main frame (Src/MainFrm.h): model and verified properties

    The header declares [CMainFrame]: the [FRAMETYPE] enumeration, the
    [OpenFileParams] family of parameter bundles, the open/show operations
    and, inline, the window procedure of the nested [CMDIClient] class.
    Structures are modelled as records, enumerations as inductive types,
    the declarations of the member functions as a signature table, and the
    inline window procedure as a program in a small state monad over the
    window state. *)

From Stdlib Require Import ZArith Lia.
From stdpp Require Import base decidable option list gmap sets strings.

Local Open Scope Z_scope.

(** ** Windows SDK and MFC constants used by the header

    These come from [winuser.h] and [afxwin.h], not from the repository; only
    the fact that the message numbers are pairwise different matters below. *)
Module Win32.

Definition TRUE : Z := 1.
Definition FALSE : Z := 0.
Definition NULL : Z := 0.

Definition WM_SETREDRAW : Z := 0x000B.
Definition WM_TIMER : Z := 0x0113.
Definition WM_MDICREATE : Z := 0x0220.
Definition WM_MDIACTIVATE : Z := 0x0222.
Definition WM_MDIGETACTIVE : Z := 0x0229.
Definition WM_MDISETMENU : Z := 0x0230.

Definition USER_TIMER_MINIMUM : Z := 0x0000000A.

Definition RDW_INVALIDATE : Z := 0x0001.
Definition RDW_ALLCHILDREN : Z := 0x0080.

Definition AFX_MBS_HIDDEN : Z := 0x02.

End Win32.

(** ** [CMainFrame::CMDIClient]: the MDI client window procedure *)
Module MDIClient.
Import Win32.

  (** [static UINT_PTR const m_nRedrawTimer = 1612;] *)
Definition m_nRedrawTimer : Z := 1612.

  (** The part of the window state the procedure acts on: the redraw flag
      of the client window ([WM_SETREDRAW]), the identifiers of its running
      timers, and the menu bar of the main frame. *)
Record Wnd : Type := mkWnd {
    redraw : bool;
    timers : gset Z;
    menuBarState : Z;
    attachedMenu : option Z
  }.

  (** A freshly created window draws itself and has no timer. *)
Definition created : Wnd :=
    {| redraw := true; timers := ∅; menuBarState := 0; attachedMenu := None |}.

  (** The calls the procedure makes, in the order it makes them. *)
Inductive call : Type :=
  | CallSendMessage (message wParam : Z)
  | CallSetTimer (nIDEvent nElapse : Z)
  | CallSetRedraw (bRedraw : bool)
  | CallKillTimer (nIDEvent : Z)
  | CallRedrawWindow (flags : Z)
  | CallSetMenuBarState (nState : Z)
  | CallAttachMenu (hMenu : Z)
  | CallBaseWindowProc (message wParam lParam : Z).

#[global] Instance call_eq_dec : EqDecision call.
Proof. solve_decision. Defined.

  (** What the system answers during one invocation: the active MDI child
      and the maximized flag written by [WM_MDIGETACTIVE], and the value
      returned by [SetTimer] (0 when the timer could not be created). *)
Record Env : Type := mkEnv {
    env_hwndActive : Z;
    env_bMaximized : Z;
    env_SetTimer : Z
  }.

  (** State monad over the window state and the log of calls. *)
Definition Proc (A : Type) : Type := Wnd * list call → A * (Wnd * list call).

Definition ret {A} (a : A) : Proc A := λ s, (a, s).
Definition bind {A B} (m : Proc A) (k : A → Proc B) : Proc B :=
    λ s, k (m s).1 (m s).2.
Definition emit (c : call) : Proc unit := λ s, (tt, (s.1, s.2 ++ [c])).
Definition update (f : Wnd → Wnd) : Proc unit := λ s, (tt, (f s.1, s.2)).

Notation "'let*' x ':=' m 'in' k" := (bind m (λ x, k))
    (at level 10, x name, m at level 100, k at level 200, only parsing).
Notation "m >>> k" := (bind m (λ _, k))
    (at level 90, right associativity, only parsing).

Definition set_redraw (b : bool) (w : Wnd) : Wnd :=
    {| redraw := b; timers := timers w;
       menuBarState := menuBarState w; attachedMenu := attachedMenu w |}.
Definition set_timers (t : gset Z) (w : Wnd) : Wnd :=
    {| redraw := redraw w; timers := t;
       menuBarState := menuBarState w; attachedMenu := attachedMenu w |}.
Definition set_menuBarState (n : Z) (w : Wnd) : Wnd :=
    {| redraw := redraw w; timers := timers w;
       menuBarState := n; attachedMenu := attachedMenu w |}.
Definition set_attachedMenu (h : Z) (w : Wnd) : Wnd :=
    {| redraw := redraw w; timers := timers w;
       menuBarState := menuBarState w; attachedMenu := Some h |}.

  (** [SendMessage(WM_MDIGETACTIVE, 0, &bMaximized)] *)
Definition SendMessage_MDIGETACTIVE (e : Env) : Proc (Z * Z) :=
    emit (CallSendMessage WM_MDIGETACTIVE 0) >>>
    ret (env_hwndActive e, env_bMaximized e).

  (** [SetTimer]: the timer runs afterwards exactly when the call returned
      a nonzero value. *)
Definition SetTimer (e : Env) (nIDEvent nElapse : Z) : Proc Z :=
    emit (CallSetTimer nIDEvent nElapse) >>>
    (if env_SetTimer e =? 0 then ret tt
     else update (λ w, set_timers ({[nIDEvent]} ∪ timers w) w)) >>>
    ret (env_SetTimer e).

Definition KillTimer (nIDEvent : Z) : Proc unit :=
    emit (CallKillTimer nIDEvent) >>>
    update (λ w, set_timers (timers w ∖ {[nIDEvent]}) w).

Definition SetRedraw (b : bool) : Proc unit :=
    emit (CallSetRedraw b) >>> update (set_redraw b).

Definition RedrawWindow (flags : Z) : Proc unit :=
    emit (CallRedrawWindow flags).

Definition SetMenuBarState (n : Z) : Proc unit :=
    emit (CallSetMenuBarState n) >>> update (set_menuBarState n).

Definition AttachMenu (h : Z) : Proc unit :=
    emit (CallAttachMenu h) >>> update (set_attachedMenu h).

Section WindowProc.

    (** [CWnd::WindowProc], the procedure of the MFC base class: its
        result and its effect on the window are not part of this file. *)
Variable CWnd_WindowProc : Z → Z → Z → Wnd → Z * Wnd.

Definition BaseWindowProc (message wParam lParam : Z) : Proc Z :=
      emit (CallBaseWindowProc message wParam lParam) >>>
      (λ s, ((CWnd_WindowProc message wParam lParam s.1).1,
             ((CWnd_WindowProc message wParam lParam s.1).2, s.2))).

    (** [virtual LRESULT WindowProc(UINT message, WPARAM wParam, LPARAM lParam)] *)
Definition WindowProc (e : Env) (message wParam lParam : Z) : Proc Z :=
      if (message =? WM_MDICREATE) || (message =? WM_MDIACTIVATE) then
        let* act := SendMessage_MDIGETACTIVE e in
        let hwndActive := act.1 in
        let bMaximized := act.2 in
        (if negb (bMaximized =? 0)
            || ((message =? WM_MDICREATE) && (hwndActive =? NULL))
         then
           let* r := SetTimer e m_nRedrawTimer USER_TIMER_MINIMUM in
           if negb (r =? 0) then SetRedraw false else ret tt
         else ret tt) >>>
        BaseWindowProc message wParam lParam
      else if message =? WM_MDISETMENU then
        SetMenuBarState AFX_MBS_HIDDEN >>>
        AttachMenu wParam >>>
        ret TRUE
      else if message =? WM_TIMER then
        (if wParam =? m_nRedrawTimer then
           KillTimer m_nRedrawTimer >>>
           SetRedraw true >>>
           RedrawWindow (Z.lor RDW_ALLCHILDREN RDW_INVALIDATE)
         else ret tt) >>>
        BaseWindowProc message wParam lParam
      else
        BaseWindowProc message wParam lParam.

    (** One delivered message together with what the system answers. *)
Record Msg : Type := mkMsg {
      msg_env : Env;
      msg_message : Z;
      msg_wParam : Z;
      msg_lParam : Z
    }.

Definition deliver (m : Msg) (w : Wnd) : Wnd :=
      fst (snd (WindowProc (msg_env m) (msg_message m) (msg_wParam m)
                  (msg_lParam m) (w, []))).

Definition calls (m : Msg) (w : Wnd) : list call :=
      snd (snd (WindowProc (msg_env m) (msg_message m) (msg_wParam m)
                  (msg_lParam m) (w, []))).

    (** The message loop delivers the messages one after the other. *)
Definition run (ms : list Msg) (w : Wnd) : Wnd :=
      fold_left (λ w m, deliver m w) ms w.

(** For the one message [m], the base class leaves the redraw flag and
    the timers of the window as it finds them.  Nothing is said of any
    other message: the base class does execute [WM_SETREDRAW], for
    instance. *)
Definition base_inert_at (m : Msg) : Prop :=
  ∀ w,
    redraw (CWnd_WindowProc (msg_message m) (msg_wParam m) (msg_lParam m) w).2
      = redraw w ∧
    timers (CWnd_WindowProc (msg_message m) (msg_wParam m) (msg_lParam m) w).2
      = timers w.

(** The test of the [WM_MDICREATE]/[WM_MDIACTIVATE] branch that comes
    before the call of [SetTimer]. *)
Definition wants_redraw_off (m : Msg) : bool :=
  negb (env_bMaximized (msg_env m) =? 0)
  || ((msg_message m =? WM_MDICREATE) && (env_hwndActive (msg_env m) =? NULL)).

End WindowProc.

(** A base procedure that handles nothing. *)
Definition idle_base : Z → Z → Z → Wnd → Z * Wnd := λ _ _ _ w, (0, w).

(** What the procedure itself does to the window: the state in which it
    calls [CWnd::WindowProc], or, for [WM_MDISETMENU], in which it
    returns.  It is computed by running the procedure up to the call of
    the base class, that is, with a base class that leaves the window
    alone; [MDIClientProps.handed_to_base] shows that every base class is
    called on exactly this state. *)
Definition before_base (m : Msg) (w : Wnd) : Wnd := deliver idle_base m w.

(** A base procedure that executes [WM_SETREDRAW], as the window
    procedure of the system does: the redraw flag becomes [wParam].  It
    handles nothing else. *)
Definition redrawing_base : Z → Z → Z → Wnd → Z * Wnd :=
  λ message wParam lParam w,
    if message =? WM_SETREDRAW then (0, set_redraw (negb (wParam =? 0)) w)
    else (0, w).

(** Sample messages: the creation of the first MDI child with a timer
    that starts, the tick of the redraw timer, and a [WM_SETREDRAW] that
    switches redraw off. *)
Definition msg_create_first : Msg :=
  mkMsg (mkEnv NULL 0 m_nRedrawTimer) WM_MDICREATE 0 0.

Definition msg_redraw_tick : Msg :=
  mkMsg (mkEnv NULL 0 0) WM_TIMER m_nRedrawTimer 0.

Definition msg_setredraw_off : Msg :=
  mkMsg (mkEnv NULL 0 0) WM_SETREDRAW 0 0.

Definition sample_messages : list Msg :=
  [msg_create_first; msg_redraw_tick; msg_setredraw_off].

End MDIClient.

(** ** The [OpenFileParams] family: the class hierarchy *)
Module Hierarchy.

(** The structures declared in lines 80 to 255 of the header. *)
Inductive cls : Type :=
| OpenFileParams
| OpenTextFileParams
| OpenTableFileParams
| OpenBinaryFileParams
| OpenImageFileParams
| OpenWebPageParams
| OpenAutoFileParams
| OpenFolderParams.

#[global] Instance cls_eq_dec : EqDecision cls.
Proof. solve_decision. Defined.

Definition all_classes : list cls :=
  [OpenFileParams; OpenTextFileParams; OpenTableFileParams;
   OpenBinaryFileParams; OpenImageFileParams; OpenWebPageParams;
   OpenAutoFileParams; OpenFolderParams].

(** Types of the data members. *)
Inductive mtype : Type :=
| Tint
| Tbool
| Ttchar
| TString
| Toptional (t : mtype)
| Tvector (t : mtype).

#[global] Instance mtype_eq_dec : EqDecision mtype.
Proof. solve_decision. Defined.

(** Default member initializers: [= -1] or none. *)
Record member : Type := mkMember {
  mem_type : mtype;
  mem_name : string;
  mem_init : option Z
}.

#[global] Instance member_eq_dec : EqDecision member.
Proof. solve_decision. Defined.

(** Direct base classes, in the order of the base-specifier list; all of
    them are [public] and none is [virtual]. *)
Definition bases (c : cls) : list cls :=
  match c with
  | OpenFileParams => []
  | OpenTextFileParams => [OpenFileParams]
  | OpenTableFileParams => [OpenTextFileParams]
  | OpenBinaryFileParams => [OpenFileParams]
  | OpenImageFileParams => [OpenFileParams]
  | OpenWebPageParams => [OpenFileParams]
  | OpenAutoFileParams =>
      [OpenTableFileParams; OpenBinaryFileParams; OpenImageFileParams]
  | OpenFolderParams => [OpenFileParams]
  end.

(** The data members a structure declares itself. *)
Definition own_members (c : cls) : list member :=
  match c with
  | OpenFileParams => []
  | OpenTextFileParams =>
      [mkMember Tint "m_line" (Some (-1));
       mkMember Tint "m_char" (Some (-1));
       mkMember TString "m_fileExt" None;
       mkMember TString "m_strSaveAsPath" None]
  | OpenTableFileParams =>
      [mkMember (Toptional Ttchar) "m_tableDelimiter" None;
       mkMember (Toptional Ttchar) "m_tableQuote" None;
       mkMember (Toptional Tbool) "m_tableAllowNewlinesInQuotes" None]
  | OpenBinaryFileParams =>
      [mkMember Tint "m_address" (Some (-1));
       mkMember TString "m_strSaveAsPath" None]
  | OpenImageFileParams =>
      [mkMember Tint "m_x" (Some (-1));
       mkMember Tint "m_y" (Some (-1));
       mkMember TString "m_strSaveAsPath" None]
  | OpenWebPageParams => []
  | OpenAutoFileParams => []
  | OpenFolderParams =>
      [mkMember (Tvector TString) "m_hiddenItems" None]
  end.

Definition declares (c : cls) (name : string) : bool :=
  bool_decide (name ∈ mem_name <$> own_members c).

(** A base-class subobject of an object of class [c] is named by the path
    of classes that leads to it, [c] first.  Without virtual inheritance
    every path is a subobject of its own. *)
Definition path : Type := list cls.

(** The hierarchy is four levels deep; [n] bounds the length of the
    paths that are followed. *)
Fixpoint subobjects_upto (n : nat) (c : cls) : list path :=
  match n with
  | O => []
  | S n' => [c] :: ((λ p, c :: p) <$> (bases c ≫= subobjects_upto n'))
  end.

Definition subobjects (c : cls) : list path :=
  subobjects_upto (length all_classes) c.

Definition path_end (p : path) : option cls := last p.

(** The subobjects of [c] whose class is [b]. *)
Definition base_subobjects (c b : cls) : list path :=
  filter (λ p, path_end p = Some b) (subobjects c).

(** [b] is [c] or a base class of [c]. *)
Definition derives_from (c b : cls) : bool :=
  bool_decide (base_subobjects c b ≠ []).

(** A pointer to [c] converts to a pointer to [b], and a [dynamic_cast]
    from a base to [b] finds its target in an object of class [c], when
    [b] is an unambiguous base of [c]. *)
Definition converts_to (c b : cls) : bool :=
  bool_decide (length (base_subobjects c b) = 1%nat).

(** Member name lookup in the scope of [c]: a declaration in a class
    hides those of its bases; otherwise the results of the direct bases
    are put together. *)
Fixpoint lookup_upto (n : nat) (c : cls) (name : string) : list path :=
  match n with
  | O => []
  | S n' =>
      if declares c name then [[c]]
      else (λ p, c :: p) <$> (bases c ≫= λ b, lookup_upto n' b name)
  end.

Definition lookup (c : cls) (name : string) : list path :=
  lookup_upto (length all_classes) c name.

(** The access [x.name] on an object of class [c] is well formed when the
    lookup finds the member in exactly one subobject. *)
Definition unqualified_access (c : cls) (name : string) : option path :=
  match lookup c name with
  | [p] => Some p
  | _ => None
  end.

(** The access [x.b::name]: the member is looked up in [b], and [b] has to
    be an unambiguous base of [c]. *)
Definition qualified_access (c b : cls) (name : string) : option path :=
  match base_subobjects c b, lookup b name with
  | [p], [q] => Some (p ++ tail q)
  | _, _ => None
  end.

(** All data members of an object of class [c], each with the subobject
    that holds it. *)
Definition all_members (c : cls) : list (path * member) :=
  subobjects c ≫= λ p,
    match path_end p with
    | Some b => (λ m, (p, m)) <$> own_members b
    | None => []
    end.

End Hierarchy.

(** ** The [OpenFileParams] family: the values

    Every structure is a record that holds its base-class subobjects first
    and its own data members after them.  [int] is a 32-bit integer,
    [tchar_t] a character code, [String] a character string; a default
    constructed [std::optional] is empty, a default constructed [String] or
    [std::vector] is empty. *)
Module Params.

Module OpenFileParams.
Record t : Type := mk { }.
Definition default : t := mk.
End OpenFileParams.

Module OpenTextFileParams.
Record t : Type := mk {
  base : OpenFileParams.t;
  m_line : Z;
  m_char : Z;
  m_fileExt : string;
  m_strSaveAsPath : string
}.
Definition default : t :=
  {| base := OpenFileParams.default; m_line := -1; m_char := -1;
     m_fileExt := ""; m_strSaveAsPath := "" |}.
Definition set_m_strSaveAsPath (v : string) (x : t) : t :=
  {| base := base x; m_line := m_line x; m_char := m_char x;
     m_fileExt := m_fileExt x; m_strSaveAsPath := v |}.
End OpenTextFileParams.

Module OpenTableFileParams.
Record t : Type := mk {
  base : OpenTextFileParams.t;
  m_tableDelimiter : option Z;
  m_tableQuote : option Z;
  m_tableAllowNewlinesInQuotes : option bool
}.
Definition default : t :=
  {| base := OpenTextFileParams.default; m_tableDelimiter := None;
     m_tableQuote := None; m_tableAllowNewlinesInQuotes := None |}.
Definition set_base (b : OpenTextFileParams.t) (x : t) : t :=
  {| base := b; m_tableDelimiter := m_tableDelimiter x;
     m_tableQuote := m_tableQuote x;
     m_tableAllowNewlinesInQuotes := m_tableAllowNewlinesInQuotes x |}.
End OpenTableFileParams.

Module OpenBinaryFileParams.
Record t : Type := mk {
  base : OpenFileParams.t;
  m_address : Z;
  m_strSaveAsPath : string
}.
Definition default : t :=
  {| base := OpenFileParams.default; m_address := -1; m_strSaveAsPath := "" |}.
Definition set_m_strSaveAsPath (v : string) (x : t) : t :=
  {| base := base x; m_address := m_address x; m_strSaveAsPath := v |}.
End OpenBinaryFileParams.

Module OpenImageFileParams.
Record t : Type := mk {
  base : OpenFileParams.t;
  m_x : Z;
  m_y : Z;
  m_strSaveAsPath : string
}.
Definition default : t :=
  {| base := OpenFileParams.default; m_x := -1; m_y := -1; m_strSaveAsPath := "" |}.
Definition set_m_strSaveAsPath (v : string) (x : t) : t :=
  {| base := base x; m_x := m_x x; m_y := m_y x; m_strSaveAsPath := v |}.
End OpenImageFileParams.

Module OpenWebPageParams.
Record t : Type := mk {
  base : OpenFileParams.t
}.
Definition default : t := {| base := OpenFileParams.default |}.
End OpenWebPageParams.

Module OpenAutoFileParams.
Record t : Type := mk {
  base_table : OpenTableFileParams.t;
  base_binary : OpenBinaryFileParams.t;
  base_image : OpenImageFileParams.t
}.
Definition default : t :=
  {| base_table := OpenTableFileParams.default;
     base_binary := OpenBinaryFileParams.default;
     base_image := OpenImageFileParams.default |}.

(** [x.OpenTextFileParams::m_strSaveAsPath], also reached as
    [x.OpenTableFileParams::m_strSaveAsPath]. *)
Definition text_m_strSaveAsPath (x : t) : string :=
  OpenTextFileParams.m_strSaveAsPath (OpenTableFileParams.base (base_table x)).
(** [x.OpenBinaryFileParams::m_strSaveAsPath] *)
Definition binary_m_strSaveAsPath (x : t) : string :=
  OpenBinaryFileParams.m_strSaveAsPath (base_binary x).
(** [x.OpenImageFileParams::m_strSaveAsPath] *)
Definition image_m_strSaveAsPath (x : t) : string :=
  OpenImageFileParams.m_strSaveAsPath (base_image x).

(** [x.OpenTextFileParams::m_strSaveAsPath = v;] *)
Definition set_text_m_strSaveAsPath (v : string) (x : t) : t :=
  {| base_table :=
       OpenTableFileParams.set_base
         (OpenTextFileParams.set_m_strSaveAsPath v
            (OpenTableFileParams.base (base_table x)))
         (base_table x);
     base_binary := base_binary x;
     base_image := base_image x |}.
(** [x.OpenBinaryFileParams::m_strSaveAsPath = v;] *)
Definition set_binary_m_strSaveAsPath (v : string) (x : t) : t :=
  {| base_table := base_table x;
     base_binary := OpenBinaryFileParams.set_m_strSaveAsPath v (base_binary x);
     base_image := base_image x |}.
(** [x.OpenImageFileParams::m_strSaveAsPath = v;] *)
Definition set_image_m_strSaveAsPath (v : string) (x : t) : t :=
  {| base_table := base_table x;
     base_binary := base_binary x;
     base_image := OpenImageFileParams.set_m_strSaveAsPath v (base_image x) |}.

(** The three subobjects of an [OpenAutoFileParams] object that declare
    data members. *)
Definition path_text : Hierarchy.path :=
  [Hierarchy.OpenAutoFileParams; Hierarchy.OpenTableFileParams;
   Hierarchy.OpenTextFileParams].
Definition path_binary : Hierarchy.path :=
  [Hierarchy.OpenAutoFileParams; Hierarchy.OpenBinaryFileParams].
Definition path_image : Hierarchy.path :=
  [Hierarchy.OpenAutoFileParams; Hierarchy.OpenImageFileParams].

(** The string member of [x] held by the subobject [p], if [p] names a
    subobject with a member [m_strSaveAsPath]. *)
Definition read_m_strSaveAsPath (p : Hierarchy.path) (x : t) : option string :=
  match p with
  | [Hierarchy.OpenAutoFileParams; Hierarchy.OpenTableFileParams;
     Hierarchy.OpenTextFileParams] => Some (text_m_strSaveAsPath x)
  | [Hierarchy.OpenAutoFileParams; Hierarchy.OpenBinaryFileParams] =>
      Some (binary_m_strSaveAsPath x)
  | [Hierarchy.OpenAutoFileParams; Hierarchy.OpenImageFileParams] =>
      Some (image_m_strSaveAsPath x)
  | _ => None
  end.

(** The assignment to the member [m_strSaveAsPath] of the subobject [p]. *)
Definition write_m_strSaveAsPath (p : Hierarchy.path) (v : string) (x : t) : t :=
  match p with
  | [Hierarchy.OpenAutoFileParams; Hierarchy.OpenTableFileParams;
     Hierarchy.OpenTextFileParams] => set_text_m_strSaveAsPath v x
  | [Hierarchy.OpenAutoFileParams; Hierarchy.OpenBinaryFileParams] =>
      set_binary_m_strSaveAsPath v x
  | [Hierarchy.OpenAutoFileParams; Hierarchy.OpenImageFileParams] =>
      set_image_m_strSaveAsPath v x
  | _ => x
  end.

(** The usage shown in the comment above the structure. *)
Definition usage_example : t :=
  set_image_m_strSaveAsPath "image_output.png"
    (set_binary_m_strSaveAsPath "binary_output.bin" default).
End OpenAutoFileParams.

Module OpenFolderParams.
Record t : Type := mk {
  base : OpenFileParams.t;
  m_hiddenItems : list string
}.
Definition default : t := {| base := OpenFileParams.default; m_hiddenItems := [] |}.
End OpenFolderParams.

(** A pointer to [OpenFileParams] points to an object of one of the
    structures of the family: the tagged union of the per-kind bundles. *)
Inductive object : Type :=
| ObjFile (x : OpenFileParams.t)
| ObjText (x : OpenTextFileParams.t)
| ObjTable (x : OpenTableFileParams.t)
| ObjBinary (x : OpenBinaryFileParams.t)
| ObjImage (x : OpenImageFileParams.t)
| ObjWebPage (x : OpenWebPageParams.t)
| ObjAuto (x : OpenAutoFileParams.t)
| ObjFolder (x : OpenFolderParams.t).

(** The dynamic type of the object. *)
Definition class_of (o : object) : Hierarchy.cls :=
  match o with
  | ObjFile _ => Hierarchy.OpenFileParams
  | ObjText _ => Hierarchy.OpenTextFileParams
  | ObjTable _ => Hierarchy.OpenTableFileParams
  | ObjBinary _ => Hierarchy.OpenBinaryFileParams
  | ObjImage _ => Hierarchy.OpenImageFileParams
  | ObjWebPage _ => Hierarchy.OpenWebPageParams
  | ObjAuto _ => Hierarchy.OpenAutoFileParams
  | ObjFolder _ => Hierarchy.OpenFolderParams
  end.

(** The default constructed object of each structure. *)
Definition default_object (c : Hierarchy.cls) : object :=
  match c with
  | Hierarchy.OpenFileParams => ObjFile OpenFileParams.default
  | Hierarchy.OpenTextFileParams => ObjText OpenTextFileParams.default
  | Hierarchy.OpenTableFileParams => ObjTable OpenTableFileParams.default
  | Hierarchy.OpenBinaryFileParams => ObjBinary OpenBinaryFileParams.default
  | Hierarchy.OpenImageFileParams => ObjImage OpenImageFileParams.default
  | Hierarchy.OpenWebPageParams => ObjWebPage OpenWebPageParams.default
  | Hierarchy.OpenAutoFileParams => ObjAuto OpenAutoFileParams.default
  | Hierarchy.OpenFolderParams => ObjFolder OpenFolderParams.default
  end.

(** The value of a data member. *)
Inductive value : Type :=
| VInt (z : Z)
| VString (v : string)
| VOptChar (v : option Z)
| VOptBool (v : option bool)
| VStrings (v : list string).

Definition type_of (v : value) : Hierarchy.mtype :=
  match v with
  | VInt _ => Hierarchy.Tint
  | VString _ => Hierarchy.TString
  | VOptChar _ => Hierarchy.Toptional Hierarchy.Ttchar
  | VOptBool _ => Hierarchy.Toptional Hierarchy.Tbool
  | VStrings _ => Hierarchy.Tvector Hierarchy.TString
  end.

(** What a member holds after default construction: its initializer, or
    the empty optional, string or vector. *)
Definition initial_value (m : Hierarchy.member) : option value :=
  match Hierarchy.mem_type m, Hierarchy.mem_init m with
  | Hierarchy.Tint, Some z => Some (VInt z)
  | Hierarchy.TString, None => Some (VString "")
  | Hierarchy.Toptional Hierarchy.Ttchar, None => Some (VOptChar None)
  | Hierarchy.Toptional Hierarchy.Tbool, None => Some (VOptBool None)
  | Hierarchy.Tvector Hierarchy.TString, None => Some (VStrings [])
  | _, _ => None
  end.

Definition field : Type := Hierarchy.path * string * value.

Definition under (c : Hierarchy.cls) (fs : list field) : list field :=
  (λ f : field, (c :: f.1.1, f.1.2, f.2)) <$> fs.

Definition fields_file (x : OpenFileParams.t) : list field := [].

Definition fields_text (x : OpenTextFileParams.t) : list field :=
  [([Hierarchy.OpenTextFileParams], "m_line", VInt (OpenTextFileParams.m_line x));
   ([Hierarchy.OpenTextFileParams], "m_char", VInt (OpenTextFileParams.m_char x));
   ([Hierarchy.OpenTextFileParams], "m_fileExt",
      VString (OpenTextFileParams.m_fileExt x));
   ([Hierarchy.OpenTextFileParams], "m_strSaveAsPath",
      VString (OpenTextFileParams.m_strSaveAsPath x))]
  ++ under Hierarchy.OpenTextFileParams (fields_file (OpenTextFileParams.base x)).

Definition fields_table (x : OpenTableFileParams.t) : list field :=
  [([Hierarchy.OpenTableFileParams], "m_tableDelimiter",
      VOptChar (OpenTableFileParams.m_tableDelimiter x));
   ([Hierarchy.OpenTableFileParams], "m_tableQuote",
      VOptChar (OpenTableFileParams.m_tableQuote x));
   ([Hierarchy.OpenTableFileParams], "m_tableAllowNewlinesInQuotes",
      VOptBool (OpenTableFileParams.m_tableAllowNewlinesInQuotes x))]
  ++ under Hierarchy.OpenTableFileParams (fields_text (OpenTableFileParams.base x)).

Definition fields_binary (x : OpenBinaryFileParams.t) : list field :=
  [([Hierarchy.OpenBinaryFileParams], "m_address",
      VInt (OpenBinaryFileParams.m_address x));
   ([Hierarchy.OpenBinaryFileParams], "m_strSaveAsPath",
      VString (OpenBinaryFileParams.m_strSaveAsPath x))]
  ++ under Hierarchy.OpenBinaryFileParams (fields_file (OpenBinaryFileParams.base x)).

Definition fields_image (x : OpenImageFileParams.t) : list field :=
  [([Hierarchy.OpenImageFileParams], "m_x", VInt (OpenImageFileParams.m_x x));
   ([Hierarchy.OpenImageFileParams], "m_y", VInt (OpenImageFileParams.m_y x));
   ([Hierarchy.OpenImageFileParams], "m_strSaveAsPath",
      VString (OpenImageFileParams.m_strSaveAsPath x))]
  ++ under Hierarchy.OpenImageFileParams (fields_file (OpenImageFileParams.base x)).

Definition fields_webpage (x : OpenWebPageParams.t) : list field :=
  under Hierarchy.OpenWebPageParams (fields_file (OpenWebPageParams.base x)).

Definition fields_auto (x : OpenAutoFileParams.t) : list field :=
  under Hierarchy.OpenAutoFileParams
    (fields_table (OpenAutoFileParams.base_table x)
     ++ fields_binary (OpenAutoFileParams.base_binary x)
     ++ fields_image (OpenAutoFileParams.base_image x)).

Definition fields_folder (x : OpenFolderParams.t) : list field :=
  [([Hierarchy.OpenFolderParams], "m_hiddenItems",
      VStrings (OpenFolderParams.m_hiddenItems x))]
  ++ under Hierarchy.OpenFolderParams (fields_file (OpenFolderParams.base x)).

(** The data members of an object with the subobject that holds each and
    the value it has. *)
Definition fields (o : object) : list field :=
  match o with
  | ObjFile x => fields_file x
  | ObjText x => fields_text x
  | ObjTable x => fields_table x
  | ObjBinary x => fields_binary x
  | ObjImage x => fields_image x
  | ObjWebPage x => fields_webpage x
  | ObjAuto x => fields_auto x
  | ObjFolder x => fields_folder x
  end.

(** The members a structure adds to those of its bases, as the object
    holds them. *)
Definition added_fields (o : object) : list field :=
  filter (λ f : field, f.1.1 = [class_of o]) (fields o).

End Params.

(** ** The member functions declared by [CMainFrame] *)
Module Decl.

(** The comparison kinds: folder, text, table, hex, image, web page. *)
Inductive kind : Type :=
| Folder | Text | Table | Hex | Image | WebPage.

#[global] Instance kind_eq_dec : EqDecision kind.
Proof. solve_decision. Defined.

Definition all_kinds : list kind := [Folder; Text; Table; Hex; Image; WebPage].

(** The named types that occur in the declarations. *)
Inductive tname : Type :=
| N_PathContext
| N_String
| N_fileopenflags_t
| N_IDirDoc
| N_PackingInfo
| N_PrediffingInfo
| N_FileLocation
| N_CFrameWnd
| N_FRAMETYPE
| N_tchar_t
| N_OpenDocList
| N_MergeDocList
| N_DirDocList
| N_HexMergeDocList
| N_CImgMergeFrame
| N_CWebPageDiffFrame
| N_Params (c : Hierarchy.cls).

#[global] Instance tname_eq_dec : EqDecision tname.
Proof. solve_decision. Defined.

Inductive ctype : Type :=
| Void
| Bool
| Int
| UInt
| Named (n : tname)
| Optional (t : ctype)
| Vector (t : ctype)
| Const (t : ctype)
| Pointer (t : ctype)
| Reference (t : ctype)
| Array (t : ctype).

#[global] Instance ctype_eq_dec : EqDecision ctype.
Proof. solve_decision. Defined.

(** Default arguments: [nullptr], [_T("")], [false], or a number. *)
Inductive default_arg : Type :=
| DefNullptr
| DefEmptyString
| DefFalse
| DefNumber (z : Z).

#[global] Instance default_arg_eq_dec : EqDecision default_arg.
Proof. solve_decision. Defined.

Record parameter : Type := mkParam {
  par_type : ctype;
  par_name : string;
  par_default : option default_arg
}.

#[global] Instance parameter_eq_dec : EqDecision parameter.
Proof. solve_decision. Defined.

(** A declaration: name, result type, parameters, and the kinds of
    document the [@brief] line says the operation shows. *)
Record mem_fun : Type := mkFun {
  fun_name : string;
  fun_result : ctype;
  fun_params : list parameter;
  fun_shows : list kind
}.

#[global] Instance mem_fun_eq_dec : EqDecision mem_fun.
Proof. solve_decision. Defined.

Definition DoFileOrFolderOpen : mem_fun :=
  mkFun "DoFileOrFolderOpen" Bool
     [mkParam (Pointer (Const (Named N_PathContext))) "pFiles" (Some DefNullptr);
      mkParam (Array (Const (Named N_fileopenflags_t))) "dwFlags" (Some DefNullptr);
      mkParam (Array (Const (Named N_String))) "strDesc" (Some DefNullptr);
      mkParam (Reference (Const (Named N_String))) "sReportFile" (Some DefEmptyString);
      mkParam (Optional Bool) "bRecurse" (Some DefFalse);
      mkParam (Pointer (Named N_IDirDoc)) "pDirDoc" (Some DefNullptr);
      mkParam (Pointer (Const (Named N_PackingInfo))) "infoUnpacker" (Some DefNullptr);
      mkParam (Pointer (Const (Named N_PrediffingInfo))) "infoPrediffer" (Some DefNullptr);
      mkParam UInt "nID" (Some (DefNumber 0));
      mkParam (Pointer (Const (Named (N_Params Hierarchy.OpenFileParams))))
        "pOpenParams" (Some DefNullptr)]
     [].

Definition DoFileOpen : mem_fun :=
  mkFun "DoFileOpen" Bool
     [mkParam UInt "nID" None;
      mkParam (Pointer (Const (Named N_PathContext))) "pFiles" None;
      mkParam (Array (Const (Named N_fileopenflags_t))) "dwFlags" (Some DefNullptr);
      mkParam (Array (Const (Named N_String))) "strDesc" (Some DefNullptr);
      mkParam (Reference (Const (Named N_String))) "sReportFile" (Some DefEmptyString);
      mkParam (Pointer (Const (Named N_PackingInfo))) "infoUnpacker" (Some DefNullptr);
      mkParam (Pointer (Const (Named N_PrediffingInfo))) "infoPrediffer" (Some DefNullptr);
      mkParam (Pointer (Const (Named (N_Params Hierarchy.OpenFileParams))))
        "pOpenParams" (Some DefNullptr)]
     [].

Definition DoFileNew : mem_fun :=
  mkFun "DoFileNew" Bool
     [mkParam UInt "nID" None;
      mkParam Int "nPanes" None;
      mkParam (Array (Const (Named N_fileopenflags_t))) "dwFlags" (Some DefNullptr);
      mkParam (Array (Const (Named N_String))) "strDesc" (Some DefNullptr);
      mkParam (Pointer (Const (Named N_PrediffingInfo))) "infoPrediffer" (Some DefNullptr);
      mkParam (Pointer (Const (Named (N_Params Hierarchy.OpenFileParams))))
        "pOpenParams" (Some DefNullptr)]
     [].

Definition DoOpenConflict : mem_fun :=
  mkFun "DoOpenConflict" Bool
     [mkParam (Reference (Const (Named N_String))) "conflictFile" None;
      mkParam (Array (Const (Named N_String))) "strDesc" (Some DefNullptr);
      mkParam Bool "checked" (Some DefFalse)]
     [].

Definition DoOpenClipboard : mem_fun :=
  mkFun "DoOpenClipboard" Bool
     [mkParam UInt "nID" (Some (DefNumber 0));
      mkParam Int "nBuffers" (Some (DefNumber 2));
      mkParam (Array (Const (Named N_fileopenflags_t))) "dwFlags" (Some DefNullptr);
      mkParam (Array (Const (Named N_String))) "strDesc" (Some DefNullptr);
      mkParam (Pointer (Const (Named N_PackingInfo))) "infoUnpacker" (Some DefNullptr);
      mkParam (Pointer (Const (Named N_PrediffingInfo))) "infoPrediffer" (Some DefNullptr);
      mkParam (Pointer (Const (Named (N_Params Hierarchy.OpenFileParams))))
        "pOpenParams" (Some DefNullptr)]
     [].

Definition DoSelfCompare : mem_fun :=
  mkFun "DoSelfCompare" Bool
     [mkParam UInt "nID" None;
      mkParam (Reference (Const (Named N_String))) "file" None;
      mkParam (Array (Const (Named N_String))) "strDesc" (Some DefNullptr);
      mkParam (Pointer (Const (Named N_PackingInfo))) "infoUnpacker" (Some DefNullptr);
      mkParam (Pointer (Const (Named N_PrediffingInfo))) "infoPrediffer" (Some DefNullptr);
      mkParam (Pointer (Const (Named (N_Params Hierarchy.OpenFileParams))))
        "pOpenParams" (Some DefNullptr)]
     [].

Definition ShowAutoMergeDoc : mem_fun :=
  mkFun "ShowAutoMergeDoc" Bool
     [mkParam UInt "nID" None;
      mkParam (Pointer (Named N_IDirDoc)) "pDirDoc" None;
      mkParam Int "nFiles" None;
      mkParam (Array (Const (Named N_FileLocation))) "fileloc" None;
      mkParam (Array (Const (Named N_fileopenflags_t))) "dwFlags" None;
      mkParam (Array (Const (Named N_String))) "strDesc" None;
      mkParam (Reference (Const (Named N_String))) "sReportFile" (Some DefEmptyString);
      mkParam (Pointer (Const (Named N_PackingInfo))) "infoUnpacker" (Some DefNullptr);
      mkParam (Pointer (Const (Named N_PrediffingInfo))) "infoPrediffer" (Some DefNullptr);
      mkParam (Pointer (Const (Named (N_Params Hierarchy.OpenFileParams)))) "pOpenParams" (Some DefNullptr)]
     [].

Definition ShowMergeDoc : mem_fun :=
  mkFun "ShowMergeDoc" Bool
     [mkParam UInt "nID" None;
      mkParam (Pointer (Named N_IDirDoc)) "pDirDoc" None;
      mkParam Int "nFiles" None;
      mkParam (Array (Const (Named N_FileLocation))) "fileloc" None;
      mkParam (Array (Const (Named N_fileopenflags_t))) "dwFlags" None;
      mkParam (Array (Const (Named N_String))) "strDesc" None;
      mkParam (Reference (Const (Named N_String))) "sReportFile" (Some DefEmptyString);
      mkParam (Pointer (Const (Named N_PackingInfo))) "infoUnpacker" (Some DefNullptr);
      mkParam (Pointer (Const (Named N_PrediffingInfo))) "infoPrediffer" (Some DefNullptr);
      mkParam (Pointer (Const (Named (N_Params Hierarchy.OpenFileParams)))) "pOpenParams" (Some DefNullptr)]
     [].

Definition ShowTextOrTableMergeDoc : mem_fun :=
  mkFun "ShowTextOrTableMergeDoc" Bool
     [mkParam (Optional Bool) "table" None;
      mkParam (Pointer (Named N_IDirDoc)) "pDirDoc" None;
      mkParam Int "nFiles" None;
      mkParam (Array (Const (Named N_FileLocation))) "fileloc" None;
      mkParam (Array (Const (Named N_fileopenflags_t))) "dwFlags" None;
      mkParam (Array (Const (Named N_String))) "strDesc" None;
      mkParam (Reference (Const (Named N_String))) "sReportFile" (Some DefEmptyString);
      mkParam (Pointer (Const (Named N_PackingInfo))) "infoUnpacker" (Some DefNullptr);
      mkParam (Pointer (Const (Named N_PrediffingInfo))) "infoPrediffer" (Some DefNullptr);
      mkParam (Pointer (Const (Named (N_Params Hierarchy.OpenTextFileParams)))) "pOpenParams" (Some DefNullptr)]
     [Text; Table].

Definition ShowTextMergeDoc_files : mem_fun :=
  mkFun "ShowTextMergeDoc" Bool
     [mkParam (Pointer (Named N_IDirDoc)) "pDirDoc" None;
      mkParam Int "nFiles" None;
      mkParam (Array (Const (Named N_FileLocation))) "fileloc" None;
      mkParam (Array (Const (Named N_fileopenflags_t))) "dwFlags" None;
      mkParam (Array (Const (Named N_String))) "strDesc" None;
      mkParam (Reference (Const (Named N_String))) "sReportFile" (Some DefEmptyString);
      mkParam (Pointer (Const (Named N_PackingInfo))) "infoUnpacker" (Some DefNullptr);
      mkParam (Pointer (Const (Named N_PrediffingInfo))) "infoPrediffer" (Some DefNullptr);
      mkParam (Pointer (Const (Named (N_Params Hierarchy.OpenTextFileParams)))) "pOpenParams" (Some DefNullptr)]
     [Text].

(** The second overload of [ShowTextMergeDoc], for text buffers. *)
Definition ShowTextMergeDoc_buffers : mem_fun :=
  mkFun "ShowTextMergeDoc" Bool
     [mkParam (Pointer (Named N_IDirDoc)) "pDirDoc" None;
      mkParam Int "nBuffers" None;
      mkParam (Array (Const (Named N_String))) "text" None;
      mkParam (Array (Const (Named N_String))) "strDesc" None;
      mkParam (Reference (Const (Named N_String))) "strFileExt" None;
      mkParam (Pointer (Const (Named (N_Params Hierarchy.OpenTextFileParams))))
        "pOpenParams" (Some DefNullptr)]
     [Text].

Definition ShowTableMergeDoc : mem_fun :=
  mkFun "ShowTableMergeDoc" Bool
     [mkParam (Pointer (Named N_IDirDoc)) "pDirDoc" None;
      mkParam Int "nFiles" None;
      mkParam (Array (Const (Named N_FileLocation))) "fileloc" None;
      mkParam (Array (Const (Named N_fileopenflags_t))) "dwFlags" None;
      mkParam (Array (Const (Named N_String))) "strDesc" None;
      mkParam (Reference (Const (Named N_String))) "sReportFile" (Some DefEmptyString);
      mkParam (Pointer (Const (Named N_PackingInfo))) "infoUnpacker" (Some DefNullptr);
      mkParam (Pointer (Const (Named N_PrediffingInfo))) "infoPrediffer" (Some DefNullptr);
      mkParam (Pointer (Const (Named (N_Params Hierarchy.OpenTextFileParams)))) "pOpenParams" (Some DefNullptr)]
     [Table].

Definition ShowHexMergeDoc : mem_fun :=
  mkFun "ShowHexMergeDoc" Bool
     [mkParam (Pointer (Named N_IDirDoc)) "pDirDoc" None;
      mkParam Int "nFiles" None;
      mkParam (Array (Const (Named N_FileLocation))) "fileloc" None;
      mkParam (Array (Const (Named N_fileopenflags_t))) "dwFlags" None;
      mkParam (Array (Const (Named N_String))) "strDesc" None;
      mkParam (Reference (Const (Named N_String))) "sReportFile" (Some DefEmptyString);
      mkParam (Pointer (Const (Named N_PackingInfo))) "infoUnpacker" (Some DefNullptr);
      mkParam (Pointer (Const (Named N_PrediffingInfo))) "infoPrediffer" (Some DefNullptr);
      mkParam (Pointer (Const (Named (N_Params Hierarchy.OpenBinaryFileParams)))) "pOpenParams" (Some DefNullptr)]
     [Hex].

Definition ShowImgMergeDoc : mem_fun :=
  mkFun "ShowImgMergeDoc" Bool
     [mkParam (Pointer (Named N_IDirDoc)) "pDirDoc" None;
      mkParam Int "nFiles" None;
      mkParam (Array (Const (Named N_FileLocation))) "fileloc" None;
      mkParam (Array (Const (Named N_fileopenflags_t))) "dwFlags" None;
      mkParam (Array (Const (Named N_String))) "strDesc" None;
      mkParam (Reference (Const (Named N_String))) "sReportFile" (Some DefEmptyString);
      mkParam (Pointer (Const (Named N_PackingInfo))) "infoUnpacker" (Some DefNullptr);
      mkParam (Pointer (Const (Named N_PrediffingInfo))) "infoPrediffer" (Some DefNullptr);
      mkParam (Pointer (Const (Named (N_Params Hierarchy.OpenImageFileParams)))) "pOpenParams" (Some DefNullptr)]
     [Image].

Definition ShowWebDiffDoc : mem_fun :=
  mkFun "ShowWebDiffDoc" Bool
     [mkParam (Pointer (Named N_IDirDoc)) "pDirDoc" None;
      mkParam Int "nFiles" None;
      mkParam (Array (Const (Named N_FileLocation))) "fileloc" None;
      mkParam (Array (Const (Named N_fileopenflags_t))) "dwFlags" None;
      mkParam (Array (Const (Named N_String))) "strDesc" None;
      mkParam (Reference (Const (Named N_String))) "sReportFile" (Some DefEmptyString);
      mkParam (Pointer (Const (Named N_PackingInfo))) "infoUnpacker" (Some DefNullptr);
      mkParam (Pointer (Const (Named N_PrediffingInfo))) "infoPrediffer" (Some DefNullptr);
      mkParam (Pointer (Const (Named (N_Params Hierarchy.OpenWebPageParams)))) "pOpenParams" (Some DefNullptr)]
     [WebPage].

Definition GetFrameType : mem_fun :=
  mkFun "GetFrameType" (Named N_FRAMETYPE)
     [mkParam (Pointer (Const (Named N_CFrameWnd))) "pFrame" None]
     [].

Definition addToMru : mem_fun :=
  mkFun "addToMru" Void
     [mkParam (Pointer (Const (Named N_tchar_t))) "szItem" None;
      mkParam (Pointer (Const (Named N_tchar_t))) "szRegSubKey" None;
      mkParam UInt "nMaxItems" (Some (DefNumber 20))]
     [].

Definition GetAllOpenDocs : mem_fun :=
  mkFun "GetAllOpenDocs" (Reference (Named N_OpenDocList)) [] [].
Definition GetAllMergeDocs : mem_fun :=
  mkFun "GetAllMergeDocs" (Reference (Named N_MergeDocList)) [] [].
Definition GetAllDirDocs : mem_fun :=
  mkFun "GetAllDirDocs" (Reference (Named N_DirDocList)) [] [].
Definition GetAllHexMergeDocs : mem_fun :=
  mkFun "GetAllHexMergeDocs" (Reference (Named N_HexMergeDocList)) [] [].
Definition GetAllImgMergeFrames : mem_fun :=
  mkFun "GetAllImgMergeFrames" (Vector (Pointer (Named N_CImgMergeFrame)))
     [] [].
Definition GetAllWebPageDiffFrames : mem_fun :=
  mkFun "GetAllWebPageDiffFrames" (Vector (Pointer (Named N_CWebPageDiffFrame)))
     [] [].

(** The declarations, in the order of the header. *)
Definition declarations : list mem_fun :=
  [DoFileOrFolderOpen; DoFileOpen; DoFileNew; DoOpenConflict; DoOpenClipboard;
   DoSelfCompare; ShowAutoMergeDoc; ShowMergeDoc; ShowTextOrTableMergeDoc;
   ShowTextMergeDoc_files; ShowTextMergeDoc_buffers; ShowTableMergeDoc;
   ShowHexMergeDoc; ShowImgMergeDoc; ShowWebDiffDoc; GetFrameType; addToMru;
   GetAllOpenDocs; GetAllMergeDocs; GetAllDirDocs; GetAllHexMergeDocs;
   GetAllImgMergeFrames; GetAllWebPageDiffFrames].

(** The names of the open and show operations. *)
Definition open_show_names : list string :=
  ["DoFileOrFolderOpen"; "DoFileOpen"; "DoFileNew"; "DoOpenConflict";
   "DoOpenClipboard"; "DoSelfCompare"; "ShowAutoMergeDoc"; "ShowMergeDoc";
   "ShowTextOrTableMergeDoc"; "ShowTextMergeDoc"; "ShowTableMergeDoc";
   "ShowHexMergeDoc"; "ShowImgMergeDoc"; "ShowWebDiffDoc"].

Definition declared (name : string) : list mem_fun :=
  filter (λ f, fun_name f = name) declarations.

Definition open_show_operations : list mem_fun :=
  filter (λ f, fun_name f ∈ open_show_names) declarations.

(** The show operations are those whose name starts with [Show]. *)
Definition is_show (f : mem_fun) : bool :=
  bool_decide (String.substring 0 4 (fun_name f) = "Show").

Definition show_operations : list mem_fun :=
  filter (λ f, is_show f = true) declarations.

Definition param (f : mem_fun) (name : string) : option parameter :=
  head (filter (λ p, par_name p = name) (fun_params f)).

(** The type of the argument [pOpenParams]. *)
Definition open_params_type (f : mem_fun) : option ctype :=
  par_type <$> param f "pOpenParams".

(** The structure a [pOpenParams] argument points to. *)
Definition open_params_class (f : mem_fun) : option Hierarchy.cls :=
  match open_params_type f with
  | Some (Pointer (Const (Named (N_Params c)))) => Some c
  | _ => None
  end.

(** Does an argument of this type refer to an object of the caller?  A
    pointer, a reference and an array (which is passed as a pointer) do. *)
Definition refers (t : ctype) : bool :=
  match t with
  | Pointer _ | Reference _ | Array _ => true
  | _ => false
  end.

(** Does the declaration let the callee write to the object: is the type
    a pointer, reference or array whose element type is not [const]?  This
    is what the declaration says to the caller; a body can still cast
    [const] away. *)
Definition declared_writable (t : ctype) : bool :=
  match t with
  | Pointer (Const _) | Reference (Const _) | Array (Const _) => false
  | Pointer _ | Reference _ | Array _ => true
  | _ => false
  end.

(** The show operations that the comments name for a kind. *)
Definition shows (k : kind) : list mem_fun :=
  filter (λ f, k ∈ fun_shows f) show_operations.

(** The structure that holds the options of a kind. *)
Definition params_of_kind (k : kind) : Hierarchy.cls :=
  match k with
  | Folder => Hierarchy.OpenFolderParams
  | Text => Hierarchy.OpenTextFileParams
  | Table => Hierarchy.OpenTableFileParams
  | Hex => Hierarchy.OpenBinaryFileParams
  | Image => Hierarchy.OpenImageFileParams
  | WebPage => Hierarchy.OpenWebPageParams
  end.

End Decl.

(** ** [CMainFrame::FRAMETYPE] *)
Module FrameType.

(** Frame/View/Document types. *)
Inductive FRAMETYPE : Type :=
| FRAME_FOLDER   (* Folder compare frame. *)
| FRAME_FILE     (* File compare frame. *)
| FRAME_HEXFILE  (* Hex file compare frame. *)
| FRAME_IMGFILE  (* Image file compare frame. *)
| FRAME_WEBPAGE  (* Web page compare frame. *)
| FRAME_OTHER.   (* No frame? *)

#[global] Instance FRAMETYPE_eq_dec : EqDecision FRAMETYPE.
Proof. solve_decision. Defined.

Definition all_frame_types : list FRAMETYPE :=
  [FRAME_FOLDER; FRAME_FILE; FRAME_HEXFILE; FRAME_IMGFILE; FRAME_WEBPAGE;
   FRAME_OTHER].

(** The value of an enumerator: its position in the declaration. *)
Definition enum_value (t : FRAMETYPE) : Z :=
  match t with
  | FRAME_FOLDER => 0
  | FRAME_FILE => 1
  | FRAME_HEXFILE => 2
  | FRAME_IMGFILE => 3
  | FRAME_WEBPAGE => 4
  | FRAME_OTHER => 5
  end.

End FrameType.

(** ** Calls of the declared operations

    A call hands the callee the objects its arguments refer to; the callee
    computes a result, changes the frame, and may leave something in each
    of these objects. *)
Module Call.
Import Decl.

(** Modelled from the spec: [PathContext] is declared in [PathContext.h],
    which is not among the sources.  Section 3 describes it as an ordered
    set of two or three input locations (left and right, or left, middle
    and right). *)
Definition PathContext : Type := list string.

(** Modelled from the spec: a path context has two or three locations. *)
Definition well_formed (pc : PathContext) : bool :=
  bool_decide (length pc = 2%nat ∨ length pc = 3%nat).

(** The objects the arguments of the open and show operations refer to. *)
Inductive obj : Type :=
| ObjPathContext (locations : PathContext)
| ObjString (v : string)
| ObjStrings (v : list string)
| ObjFlags (v : list Z)
| ObjParams (v : Params.object)
| ObjDirDoc (state : list string)
| ObjOther (tag : Z).

#[global] Instance obj_inhabited : Inhabited obj := populate (ObjOther 0).

(** An argument: a number, an optional flag, or the address of an object
    (0 for [nullptr]). *)
Inductive arg : Type :=
| ArgNumber (z : Z)
| ArgOptional (o : option bool)
| ArgAddress (a : Z).

Definition heap : Type := gmap Z obj.

Definition pointee (h : heap) (a : arg) : option obj :=
  match a with
  | ArgAddress x => h !! x
  | _ => None
  end.

Section Body.

(** The state of the frame, and the body of an operation: from the frame
    and from the arguments with the objects they refer to, it computes the
    result, the new frame, and for each argument what it leaves in the
    object the argument refers to. *)
Variable Frame : Type.
Variable R : Type.

Definition body : Type :=
  Frame → list (arg * option obj) → R * Frame * list (option obj).

(** Can the callee reach an object through this argument?  Through the
    address of an object passed for a pointer, reference or array
    parameter, whether or not the parameter is declared to [const]: a body
    can cast [const] away.  Nothing is reached through [nullptr]. *)
Definition reaches (p : parameter) (a : arg) : option Z :=
  match a with
  | ArgAddress x => if refers (par_type p) && negb (x =? 0) then Some x else None
  | _ => None
  end.

(** Storing what the body leaves behind, in every object it can reach. *)
Fixpoint write_back (ps : list parameter) (args : list arg)
    (outs : list (option obj)) (h : heap) : heap :=
  match ps, args, outs with
  | p :: ps', a :: args', o :: outs' =>
      let h' :=
        match reaches p a, o with
        | Some x, Some v => <[x := v]> h
        | _, _ => h
        end in
      write_back ps' args' outs' h'
  | _, _, _ => h
  end.

Definition call (f : mem_fun) (b : body) (fr : Frame) (h : heap)
    (args : list arg) : R * Frame * heap :=
  let r := b fr ((λ a, (a, pointee h a)) <$> args) in
  (r.1.1, r.1.2, write_back (fun_params f) args r.2 h).

(** The addresses of the objects the callee can reach. *)
Fixpoint reachable (ps : list parameter) (args : list arg) : list Z :=
  match ps, args with
  | p :: ps', a :: args' =>
      match reaches p a with
      | Some x => x :: reachable ps' args'
      | None => reachable ps' args'
      end
  | _, _ => []
  end.

End Body.

Definition sample_heap : heap :=
  <[16 := ObjPathContext ["C:\left.txt"; "C:\right.txt"]]>
    (<[32 := ObjDirDoc []]> ∅).

End Call.

(** ** The session opener

    The bodies of the open and show operations
    ([CMainFrame::DoFileOrFolderOpen], [DoFileOpen], [DoFileNew],
    [DoOpenClipboard], [DoSelfCompare] and the [Show*Doc] functions) and of
    the [GetAll*] functions are in [MainFrm.cpp], which is not among the
    sources.  The definitions of this module that stand for them follow
    sections 3, 4.1, 7 and 8 of the specification: the opener is given a
    path context and an [OpenFileParams] variant, chooses one
    document/view kind by inspecting the file or folder type and the
    variant, and delegates to the show operation of that kind; the created
    document is tracked in the list of its kind until it is closed; a
    failure is reported by the result [false]. *)
Module Opener.
Import Decl Call.

(** A document handle: an opaque reference to an open session. *)
Definition Doc : Type := nat.

(** The per-kind tracking lists, one for each [GetAll*] function of the
    header. *)
Inductive tracking : Type :=
| OpenDocs
| MergeDocs
| DirDocs
| HexMergeDocs
| ImgMergeFrames
| WebPageDiffFrames.

#[global] Instance tracking_eq_dec : EqDecision tracking.
Proof. solve_decision. Defined.

Definition all_tracking : list tracking :=
  [OpenDocs; MergeDocs; DirDocs; HexMergeDocs; ImgMergeFrames; WebPageDiffFrames].

(** The getter of the header that returns a list. *)
Definition getter (l : tracking) : mem_fun :=
  match l with
  | OpenDocs => GetAllOpenDocs
  | MergeDocs => GetAllMergeDocs
  | DirDocs => GetAllDirDocs
  | HexMergeDocs => GetAllHexMergeDocs
  | ImgMergeFrames => GetAllImgMergeFrames
  | WebPageDiffFrames => GetAllWebPageDiffFrames
  end.

(** Modelled from the spec: the tracking state of the frame, whose
    members are defined in [MainFrm.cpp]: what each list holds, and the
    handle the next document gets. *)
Record Frame : Type := mkFrame {
  GetAll : tracking → list Doc;
  next_doc : Doc
}.

Definition empty_frame : Frame := {| GetAll := λ _, []; next_doc := 0%nat |}.

(** Modelled from the spec: the list that corresponds to a kind (section
    8).  The header has one list per document class; text and table
    documents are both merge documents, shown by [ShowTextMergeDoc] and
    [ShowTableMergeDoc]. *)
Definition tracked_in (k : kind) : tracking :=
  match k with
  | Folder => DirDocs
  | Text | Table => MergeDocs
  | Hex => HexMergeDocs
  | Image => ImgMergeFrames
  | WebPage => WebPageDiffFrames
  end.

(** Modelled from the spec: a created document is appended to a list
    under a fresh handle. *)
Definition register (l : tracking) (fr : Frame) : Frame :=
  {| GetAll := λ l', if decide (l' = l) then GetAll fr l' ++ [next_doc fr]
                     else GetAll fr l';
     next_doc := S (next_doc fr) |}.

(** Modelled from the spec: a closed document is tracked no longer. *)
Definition unregister (d : Doc) (fr : Frame) : Frame :=
  {| GetAll := λ l, filter (λ d', d' ≠ d) (GetAll fr l);
     next_doc := next_doc fr |}.

(** Modelled from the spec: instantiating a document of kind [k] (the
    bodies are in [MainFrm.cpp]).  [loaded] tells whether the collaborator
    could load the session: failures (bad path, unsupported content,
    cancellation by the user) are resolved there, and all the frame
    reports is [false] (section 7). *)
Definition instantiate (k : kind) (loaded : bool) (fr : Frame) : bool * Frame :=
  if loaded then (true, register (tracked_in k) fr) else (false, fr).

(** Modelled from the spec: the show operation the opener delegates a
    kind to (section 4.1), by the names of the declared operations; a
    folder compare has none. *)
Definition delegate (k : kind) : option mem_fun :=
  match k with
  | Folder => None
  | Text => Some ShowTextMergeDoc_files
  | Table => Some ShowTableMergeDoc
  | Hex => Some ShowHexMergeDoc
  | Image => Some ShowImgMergeDoc
  | WebPage => Some ShowWebDiffDoc
  end.

(** The options the caller has, converted to the declared parameter type
    of a show operation ([nullptr] when there are none or they are of
    another structure). *)
Definition pass_params (f : mem_fun) (params : option Params.object)
    : option Params.object :=
  match params, open_params_class f with
  | Some o, Some c =>
      if Hierarchy.converts_to (Params.class_of o) c then Some o else None
  | _, _ => None
  end.

(** Modelled from the spec: the body of a show operation, called for
    one of the kinds it shows. *)
Definition show (f : mem_fun) (k : kind) (params : option Params.object)
    (loaded : bool) (fr : Frame) : bool * Frame :=
  if bool_decide (f ∈ shows k) then instantiate k loaded fr else (false, fr).

(** The open operations of the pipeline. *)
Inductive entry : Type :=
| ByDoFileOrFolderOpen
| ByDoFileOpen
| ByDoFileNew
| ByDoOpenClipboard
| ByDoSelfCompare.

Definition entry_decl (e : entry) : mem_fun :=
  match e with
  | ByDoFileOrFolderOpen => DoFileOrFolderOpen
  | ByDoFileOpen => DoFileOpen
  | ByDoFileNew => DoFileNew
  | ByDoOpenClipboard => DoOpenClipboard
  | ByDoSelfCompare => DoSelfCompare
  end.

Section Chooser.

(** The choice of the kind, by the file or folder type of the locations
    and by the variant of the options: [None] when the type is not
    supported or a location is not accessible. *)
Variable choose : entry → PathContext → option Hierarchy.cls → option kind.

(** Modelled from the spec: the body of an open operation (section
    4.1).  The path context is validated, the kind is chosen, and the work
    is delegated to the show operation of the kind. *)
Definition open_session (e : entry) (pc : PathContext)
    (params : option Params.object) (loaded : bool) (fr : Frame)
    : bool * Frame :=
  if well_formed pc then
    match choose e pc (Params.class_of <$> params) with
    | Some k =>
        match delegate k with
        | Some f => show f k (pass_params f params) loaded fr
        | None => instantiate k loaded fr
        end
    | None => (false, fr)
    end
  else (false, fr).

(** What happens to the frame: sessions are opened through the pipeline
    or by a show operation, and closed. *)
Inductive request : Type :=
| Open (e : entry) (pc : PathContext) (params : option Params.object)
    (loaded : bool)
| Show (f : mem_fun) (k : kind) (params : option Params.object)
    (loaded : bool)
| Close (d : Doc).

Definition step (rq : request) (fr : Frame) : bool * Frame :=
  match rq with
  | Open e pc params loaded => open_session e pc params loaded fr
  | Show f k params loaded => show f k params loaded fr
  | Close d => (true, unregister d fr)
  end.

Definition run (rqs : list request) (fr : Frame) : Frame :=
  fold_left (λ fr rq, (step rq fr).2) rqs fr.

(** The kind a request instantiates, if it succeeds. *)
Definition kind_of (rq : request) : option kind :=
  match rq with
  | Open e pc params loaded =>
      if well_formed pc && loaded then
        match choose e pc (Params.class_of <$> params) with
        | Some k =>
            match delegate k with
            | Some f => if bool_decide (f ∈ shows k) then Some k else None
            | None => Some k
            end
        | None => None
        end
      else None
  | Show f k params loaded =>
      if bool_decide (f ∈ shows k) && loaded then Some k else None
  | Close _ => None
  end.

Definition closes (d : Doc) (rq : request) : Prop :=
  match rq with
  | Close d' => d' = d
  | _ => False
  end.

Definition opens (rq : request) : Prop :=
  match rq with
  | Close _ => False
  | _ => True
  end.

(** Handles in the lists are older than the next handle. *)
Definition bounded (fr : Frame) : Prop :=
  ∀ l d, d ∈ GetAll fr l → (d < next_doc fr)%nat.

(** The number of times a list holds a handle. *)
Definition count (d : Doc) (ds : list Doc) : nat :=
  length (filter (λ d', d' = d) ds).

(** The number of tracking lists that hold [d], counted with the number
    of times each holds it. *)
Definition registrations (d : Doc) (fr : Frame) : nat :=
  length (filter (λ d', d' = d) (all_tracking ≫= GetAll fr)).

End Chooser.

(** A chooser for the samples: it goes by the variant of the options
    alone. *)
Definition sample_choose (e : entry) (pc : PathContext)
    (c : option Hierarchy.cls) : option kind :=
  match c with
  | Some Hierarchy.OpenFolderParams => Some Folder
  | Some Hierarchy.OpenTextFileParams => Some Text
  | Some Hierarchy.OpenTableFileParams => Some Table
  | Some Hierarchy.OpenBinaryFileParams => Some Hex
  | Some Hierarchy.OpenImageFileParams => Some Image
  | Some Hierarchy.OpenWebPageParams => Some WebPage
  | _ => None
  end.

Definition sample_requests : list request :=
  [Open ByDoFileOrFolderOpen ["C:\a"; "C:\b"]
     (Some (Params.default_object Hierarchy.OpenFolderParams)) true;
   Open ByDoFileOpen ["C:\a\x.csv"; "C:\b\x.csv"]
     (Some (Params.default_object Hierarchy.OpenTableFileParams)) true].

Definition sample_open : request :=
  Open ByDoFileOpen ["C:\a\x.bin"; "C:\b\x.bin"]
    (Some (Params.default_object Hierarchy.OpenBinaryFileParams)) true.

End Opener.

(** ** The window procedure: result and log of a delivery *)
Module MDIClientResult.
Import Win32 MDIClient.

Section WindowProc.

Variable CWnd_WindowProc : Z → Z → Z → Wnd → Z * Wnd.

(** The [LRESULT] the procedure returns for a delivered message. *)
Definition result (m : Msg) (w : Wnd) : Z :=
  (WindowProc CWnd_WindowProc (msg_env m) (msg_message m) (msg_wParam m)
     (msg_lParam m) (w, [])).1.

(** Is the call one of [SetTimer]? *)
Definition is_SetTimer (c : call) : bool :=
  match c with
  | CallSetTimer _ _ => true
  | _ => false
  end.

End WindowProc.

(** Redraw flag and redraw timer go together: redraw is off exactly while
    timer 1612 runs, and the window has no other timer. *)
Definition in_step (w : Wnd) : Prop :=
  (redraw w = false ↔ m_nRedrawTimer ∈ timers w) ∧
  timers w ⊆ {[m_nRedrawTimer]}.

(** A base procedure that answers every message with 7 and leaves the
    window alone. *)
Definition seven_base : Z → Z → Z → Wnd → Z * Wnd := λ _ _ _ w, (7, w).

End MDIClientResult.

(** ** Default arguments and the handler [OnFileNew] *)
Module CallDefaults.
Import Decl Call.

(** An argument of a call as the compiler completes it: written by the
    caller, or taken from the default of the declaration. *)
Inductive passed : Type :=
| Given (a : arg)
| Defaulted (d : default_arg).

(** The default arguments of a call that the compiler has resolved to a
    declaration: the arguments are matched from the left, and a parameter
    left without an argument takes its default.  There is no completion
    when there are more arguments than parameters or when a parameter is
    left with neither.  Whether the types of the arguments fit, and which
    of two overloads is meant, the compiler decides before this step; that
    is not modelled here. *)
Fixpoint complete (ps : list parameter) (given : list arg)
    : option (list passed) :=
  match ps, given with
  | [], [] => Some []
  | [], _ :: _ => None
  | p :: ps', a :: given' => cons (Given a) <$> complete ps' given'
  | p :: ps', [] =>
      match par_default p with
      | Some d => cons (Defaulted d) <$> complete ps' []
      | None => None
      end
  end.

(** The value a default stands for at a parameter of type [t]:
    [nullptr] is the null address, [false] the flag or optional flag, a
    number itself.  [_T("")] is a temporary string and has no value
    here. *)
Definition default_value (t : ctype) (d : default_arg) : option arg :=
  match d, t with
  | DefNullptr, (Pointer _ | Array _) => Some (ArgAddress 0)
  | DefFalse, Bool => Some (ArgNumber 0)
  | DefFalse, Optional Bool => Some (ArgOptional (Some false))
  | DefNumber z, (Int | UInt) => Some (ArgNumber z)
  | _, _ => None
  end.

Fixpoint evaluate (ps : list parameter) (xs : list passed)
    : option (list arg) :=
  match ps, xs with
  | [], [] => Some []
  | p :: ps', Given a :: xs' => cons a <$> evaluate ps' xs'
  | p :: ps', Defaulted d :: xs' =>
      match default_value (par_type p) d with
      | Some a => cons a <$> evaluate ps' xs'
      | None => None
      end
  | _, _ => None
  end.

Section OnFileNew.

Variable Frame : Type.

(** The body of [DoFileNew], defined in [MainFrm.cpp]. *)
Variable DoFileNew_body : body Frame bool.

(** [template <int nFiles, unsigned nID> void OnFileNew()
    { DoFileNew(nID, nFiles); }]: the call is completed with the defaults
    of [DoFileNew] and its result is dropped. *)
Definition OnFileNew (nFiles nID : Z) (fr : Frame) (h : heap)
    : option (Frame * heap) :=
  match complete (fun_params DoFileNew) [ArgNumber nID; ArgNumber nFiles] with
  | Some xs =>
      match evaluate (fun_params DoFileNew) xs with
      | Some args =>
          let r := call Frame bool DoFileNew DoFileNew_body fr h args in
          Some (r.1.2, r.2)
      | None => None
      end
  | None => None
  end.

End OnFileNew.

(** A body that counts the panes it is asked for into the frame, and
    that leaves an empty path context in every object it is given. *)
Definition counting_body : body Z bool :=
  λ fr ins,
    (true,
     match ins with
     | _ :: (ArgNumber n, _) :: _ => fr + n
     | _ => fr
     end,
     (λ _, Some (ObjPathContext [])) <$> ins).

End CallDefaults.

(** ** The menu enumerations of [CMainFrame] *)
Module Menus.

(** [enum { MENU_MAINFRM = 0x000001, MENU_FILECMP = 0x000002,
    MENU_FOLDERCMP = 0x000004,
    MENU_ALL = MENU_MAINFRM | MENU_FILECMP | MENU_FOLDERCMP }] *)
Definition MENU_MAINFRM : Z := 0x000001.
Definition MENU_FILECMP : Z := 0x000002.
Definition MENU_FOLDERCMP : Z := 0x000004.
Definition MENU_ALL : Z :=
  Z.lor (Z.lor MENU_MAINFRM MENU_FILECMP) MENU_FOLDERCMP.

(** [struct MENUITEM_ICON { int menuitemID; int iconResID;
    int menusToApply; }] *)
Record MENUITEM_ICON : Type := mkMenuItemIcon {
  menuitemID : Z;
  iconResID : Z;
  menusToApply : Z
}.

(** The mask that names a choice of the three kinds of frame. *)
Definition mask_of (mainfrm filecmp foldercmp : bool) : Z :=
  Z.lor (Z.lor (if mainfrm then MENU_MAINFRM else 0)
               (if filecmp then MENU_FILECMP else 0))
        (if foldercmp then MENU_FOLDERCMP else 0).

(** The test [menusToApply & flag]. *)
Definition applies (icon : MENUITEM_ICON) (flag : Z) : bool :=
  negb (Z.land (menusToApply icon) flag =? 0).

End Menus.

(** ** A sample classification of the kinds by frame type *)
Module FrameTypeSample.
Import FrameType Decl.

(** One frame type per document class, for the samples: text and table
    compares are both file compares. *)
Definition by_document (k : kind) : FRAMETYPE :=
  match k with
  | Folder => FRAME_FOLDER
  | Text | Table => FRAME_FILE
  | Hex => FRAME_HEXFILE
  | Image => FRAME_IMGFILE
  | WebPage => FRAME_WEBPAGE
  end.

End FrameTypeSample.

(* ================================================================== *)
(** * Properties *)
(* ================================================================== *)

(** ** The window procedure of the MDI client *)
Module MDIClientProps.
Import Win32 MDIClient.

Ltac absent_call H :=
  apply list_elem_of_In in H; cbn in H; intuition discriminate.

Ltac proc_unfold :=
  unfold before_base, MDIClient.deliver, MDIClient.calls, WindowProc,
    BaseWindowProc, SendMessage_MDIGETACTIVE, SetTimer, KillTimer, SetRedraw,
    RedrawWindow, SetMenuBarState, AttachMenu, idle_base, bind, ret, emit,
    update.

(** The four cases of the [switch]. *)
Lemma message_cases (x : Z) :
  (x = WM_MDICREATE ∨ x = WM_MDIACTIVATE) ∨ x = WM_MDISETMENU ∨ x = WM_TIMER ∨
  ((x =? WM_MDICREATE) || (x =? WM_MDIACTIVATE) = false ∧
   (x =? WM_MDISETMENU) = false ∧ (x =? WM_TIMER) = false).
Proof.
  destruct (Z.eqb_spec x WM_MDICREATE); [auto|].
  destruct (Z.eqb_spec x WM_MDIACTIVATE); [auto|].
  destruct (Z.eqb_spec x WM_MDISETMENU); [auto|].
  destruct (Z.eqb_spec x WM_TIMER); [auto|].
  right; right; right. repeat split.
Qed.

Lemma mdi_or_not (m : Msg) :
  {msg_message m = WM_MDICREATE ∨ msg_message m = WM_MDIACTIVATE} +
  {¬ (msg_message m = WM_MDICREATE ∨ msg_message m = WM_MDIACTIVATE)}.
Proof.
  exact (decide (msg_message m = WM_MDICREATE ∨ msg_message m = WM_MDIACTIVATE)).
Qed.

Lemma tick_or_not (m : Msg) :
  {msg_message m = WM_TIMER ∧ msg_wParam m = m_nRedrawTimer} +
  {¬ (msg_message m = WM_TIMER ∧ msg_wParam m = m_nRedrawTimer)}.
Proof.
  exact (decide (msg_message m = WM_TIMER ∧ msg_wParam m = m_nRedrawTimer)).
Qed.

(** What the [WM_MDICREATE]/[WM_MDIACTIVATE] branch does to the window:
    redraw is switched off exactly when the test holds and [SetTimer]
    returned a nonzero value; the timer then runs. *)
Lemma before_base_mdi (m : Msg) (w : Wnd) :
  msg_message m = WM_MDICREATE ∨ msg_message m = WM_MDIACTIVATE →
  let off := wants_redraw_off m && negb (env_SetTimer (msg_env m) =? 0) in
  redraw (before_base m w) = (if off then false else redraw w) ∧
  timers (before_base m w) =
    (if off then {[m_nRedrawTimer]} ∪ timers w else timers w).
Proof.
  intros Hm. unfold wants_redraw_off. proc_unfold.
  assert (Hc : (msg_message m =? WM_MDICREATE) || (msg_message m =? WM_MDIACTIVATE) = true).
  { destruct Hm as [-> | ->]; reflexivity. }
  rewrite Hc. cbn.
  destruct (negb (env_bMaximized (msg_env m) =? 0)
            || (msg_message m =? WM_MDICREATE) && (env_hwndActive (msg_env m) =? NULL)); cbn.
  - destruct (env_SetTimer (msg_env m) =? 0); cbn; split; reflexivity.
  - split; reflexivity.
Qed.

(** What the [WM_TIMER] branch does to the window at the tick of the
    redraw timer. *)
Lemma before_base_tick (m : Msg) (w : Wnd) :
  msg_message m = WM_TIMER → msg_wParam m = m_nRedrawTimer →
  redraw (before_base m w) = true ∧
  timers (before_base m w) = timers w ∖ {[m_nRedrawTimer]}.
Proof.
  intros Hm Hw. proc_unfold. rewrite Hm, Hw. cbn. auto.
Qed.

(** For every other message the procedure leaves redraw flag and timers
    alone. *)
Lemma before_base_other (m : Msg) (w : Wnd) :
  ¬ (msg_message m = WM_MDICREATE ∨ msg_message m = WM_MDIACTIVATE) →
  ¬ (msg_message m = WM_TIMER ∧ msg_wParam m = m_nRedrawTimer) →
  redraw (before_base m w) = redraw w ∧ timers (before_base m w) = timers w.
Proof.
  intros Hmdi Htim.
  destruct (message_cases (msg_message m)) as [H | [H | [H | (H1 & H2 & H3)]]].
  - contradiction.
  - proc_unfold. rewrite H. cbn. split; reflexivity.
  - proc_unfold. rewrite H. cbn.
    destruct (Z.eqb_spec (msg_wParam m) m_nRedrawTimer) as [E | E]; [tauto|].
    cbn. split; reflexivity.
  - proc_unfold. rewrite H1, H2, H3. cbn. split; reflexivity.
Qed.

Section Base.

Variable CWnd_WindowProc : Z → Z → Z → Wnd → Z * Wnd.

Abbreviation deliver := (MDIClient.deliver CWnd_WindowProc).
Abbreviation calls := (MDIClient.calls CWnd_WindowProc).
Abbreviation run := (MDIClient.run CWnd_WindowProc).

(** The calls of the [WM_MDICREATE]/[WM_MDIACTIVATE] branch. *)
Lemma calls_mdi (m : Msg) (w : Wnd) :
  msg_message m = WM_MDICREATE ∨ msg_message m = WM_MDIACTIVATE →
  calls m w =
    CallSendMessage WM_MDIGETACTIVE 0 ::
    (if wants_redraw_off m then
       CallSetTimer m_nRedrawTimer USER_TIMER_MINIMUM ::
       (if env_SetTimer (msg_env m) =? 0 then [] else [CallSetRedraw false])
     else []) ++
    [CallBaseWindowProc (msg_message m) (msg_wParam m) (msg_lParam m)].
Proof.
  intros Hm. unfold wants_redraw_off. proc_unfold.
  assert (Hc : (msg_message m =? WM_MDICREATE) || (msg_message m =? WM_MDIACTIVATE) = true).
  { destruct Hm as [-> | ->]; reflexivity. }
  rewrite Hc. cbn.
  destruct (negb (env_bMaximized (msg_env m) =? 0)
            || (msg_message m =? WM_MDICREATE) && (env_hwndActive (msg_env m) =? NULL)); cbn.
  - destruct (env_SetTimer (msg_env m) =? 0); reflexivity.
  - reflexivity.
Qed.

(** The calls of the [WM_TIMER] branch at the tick of the redraw timer. *)
Lemma calls_tick (m : Msg) (w : Wnd) :
  msg_message m = WM_TIMER → msg_wParam m = m_nRedrawTimer →
  calls m w =
    [CallKillTimer m_nRedrawTimer; CallSetRedraw true;
     CallRedrawWindow (Z.lor RDW_ALLCHILDREN RDW_INVALIDATE);
     CallBaseWindowProc WM_TIMER m_nRedrawTimer (msg_lParam m)].
Proof.
  intros Hm Hw. proc_unfold. rewrite Hm, Hw. reflexivity.
Qed.

(** No other delivery calls [SetRedraw]. *)
Lemma calls_other (m : Msg) (w : Wnd) (b : bool) :
  ¬ (msg_message m = WM_MDICREATE ∨ msg_message m = WM_MDIACTIVATE) →
  ¬ (msg_message m = WM_TIMER ∧ msg_wParam m = m_nRedrawTimer) →
  CallSetRedraw b ∉ calls m w.
Proof.
  intros Hmdi Htim Hin.
  destruct (message_cases (msg_message m)) as [H | [H | [H | (H1 & H2 & H3)]]].
  - contradiction.
  - revert Hin. proc_unfold. rewrite H. cbn. intros Hin. absent_call Hin.
  - revert Hin. proc_unfold. rewrite H. cbn.
    destruct (Z.eqb_spec (msg_wParam m) m_nRedrawTimer) as [E | E]; [tauto|].
    cbn. intros Hin. absent_call Hin.
  - revert Hin. proc_unfold. rewrite H1, H2, H3. cbn. intros Hin. absent_call Hin.
Qed.

(** The base class is called on the state the procedure has made of the
    window, and what the base class makes of that state is the state after
    the delivery. *)
Lemma handed_to_base (m : Msg) (w : Wnd) :
  msg_message m ≠ WM_MDISETMENU →
  deliver m w =
    (CWnd_WindowProc (msg_message m) (msg_wParam m) (msg_lParam m)
       (before_base m w)).2.
Proof.
  intros Hs. proc_unfold. rewrite (proj2 (Z.eqb_neq _ _) Hs).
  destruct ((msg_message m =? WM_MDICREATE) || (msg_message m =? WM_MDIACTIVATE)).
  - cbn.
    destruct (negb (env_bMaximized (msg_env m) =? 0)
              || (msg_message m =? WM_MDICREATE)
                 && (env_hwndActive (msg_env m) =? NULL)); cbn;
      [destruct (env_SetTimer (msg_env m) =? 0) |]; reflexivity.
  - destruct (msg_message m =? WM_TIMER); [| reflexivity].
    destruct (msg_wParam m =? m_nRedrawTimer); reflexivity.
Qed.

(** [WM_MDISETMENU] does not reach the base class. *)
Lemma setmenu_skips_base (m : Msg) (w : Wnd) :
  msg_message m = WM_MDISETMENU → deliver m w = before_base m w.
Proof. intros Hs. proc_unfold. rewrite Hs. reflexivity. Qed.

(** Where the base class is inert, redraw flag and timers after the
    delivery are those the procedure itself has set. *)
Lemma deliver_inert (m : Msg) (w : Wnd) :
  base_inert_at CWnd_WindowProc m →
  redraw (deliver m w) = redraw (before_base m w) ∧
  timers (deliver m w) = timers (before_base m w).
Proof.
  intros Hb.
  destruct (decide (msg_message m = WM_MDISETMENU)) as [Hs | Hs].
  - rewrite (setmenu_skips_base m w Hs). split; reflexivity.
  - rewrite (handed_to_base m w Hs). apply Hb.
Qed.

Lemma run_deliver_last (ms : list Msg) (m : Msg) (w : Wnd) :
  run (ms ++ [m]) w = deliver m (run ms w).
Proof. unfold MDIClient.run. rewrite fold_left_app. reflexivity. Qed.

(** Only the [WM_MDICREATE]/[WM_MDIACTIVATE] branch calls
    [SetRedraw(FALSE)], and only behind a [SetTimer] that succeeded. *)
Lemma redraw_off_only_behind_timer (m : Msg) (w : Wnd) :
  CallSetRedraw false ∈ calls m w →
  (msg_message m = WM_MDICREATE ∨ msg_message m = WM_MDIACTIVATE) ∧
  wants_redraw_off m = true ∧
  env_SetTimer (msg_env m) ≠ 0 ∧
  calls m w =
    [CallSendMessage WM_MDIGETACTIVE 0;
     CallSetTimer m_nRedrawTimer USER_TIMER_MINIMUM;
     CallSetRedraw false;
     CallBaseWindowProc (msg_message m) (msg_wParam m) (msg_lParam m)].
Proof.
  intros Hin.
  destruct (mdi_or_not m) as [Hm | Hm].
  - split; [exact Hm|]. rewrite (calls_mdi m w Hm) in Hin |- *.
    destruct (wants_redraw_off m); cbn in *.
    + destruct (Z.eqb_spec (env_SetTimer (msg_env m)) 0) as [E | E]; cbn in *.
      * absent_call Hin.
      * split; [reflexivity|]. split; [exact E | reflexivity].
    + absent_call Hin.
  - exfalso. destruct (tick_or_not m) as [[Ht Hid] | Ht].
    + rewrite (calls_tick m w Ht Hid) in Hin. absent_call Hin.
    + exact (calls_other m w false Hm Ht Hin).
Qed.

(** C10. In [CMDIClient::WindowProc] the state with redraw switched off is
    transient.  For every procedure of the base class, every state [w] of
    the window and every delivered message [m]: [SetRedraw(FALSE)] is
    called only in the [WM_MDICREATE]/[WM_MDIACTIVATE] branch and only
    after [SetTimer] for timer 1612 returned a nonzero value, and the
    window then goes to the base class with redraw off and the timer
    running; the [WM_TIMER] branch for timer 1612 kills the timer, calls
    [SetRedraw(TRUE)] and redraws the window with all its children, and
    the window goes to the base class with redraw on and the timer gone;
    the state after the delivery is what the base class makes of the state
    it is handed, so where the base class leaves redraw flag and timers
    alone for the delivered message they are as the procedure set them;
    and whatever was delivered before and whatever the base class did
    with it, after the delivery of that timer's [WM_TIMER] redraw is on
    again, provided the base class leaves the flag alone for this one
    message. *)
Theorem redraw_disabled_is_transient (m : Msg) (w : Wnd) :
  (CallSetRedraw false ∈ calls m w →
     (msg_message m = WM_MDICREATE ∨ msg_message m = WM_MDIACTIVATE) ∧
     env_SetTimer (msg_env m) ≠ 0 ∧
     calls m w =
       [CallSendMessage WM_MDIGETACTIVE 0;
        CallSetTimer m_nRedrawTimer USER_TIMER_MINIMUM;
        CallSetRedraw false;
        CallBaseWindowProc (msg_message m) (msg_wParam m) (msg_lParam m)] ∧
     redraw (before_base m w) = false ∧
     m_nRedrawTimer ∈ timers (before_base m w)) ∧
  (msg_message m = WM_TIMER → msg_wParam m = m_nRedrawTimer →
     calls m w =
       [CallKillTimer m_nRedrawTimer; CallSetRedraw true;
        CallRedrawWindow (Z.lor RDW_ALLCHILDREN RDW_INVALIDATE);
        CallBaseWindowProc WM_TIMER m_nRedrawTimer (msg_lParam m)] ∧
     redraw (before_base m w) = true ∧
     m_nRedrawTimer ∉ timers (before_base m w)) ∧
  (msg_message m ≠ WM_MDISETMENU →
     deliver m w =
       (CWnd_WindowProc (msg_message m) (msg_wParam m) (msg_lParam m)
          (before_base m w)).2) ∧
  (base_inert_at CWnd_WindowProc m →
     redraw (deliver m w) = redraw (before_base m w) ∧
     timers (deliver m w) = timers (before_base m w)) ∧
  (∀ (ms : list Msg) (tick : Msg),
     msg_message tick = WM_TIMER → msg_wParam tick = m_nRedrawTimer →
     base_inert_at CWnd_WindowProc tick →
     redraw (run (ms ++ [tick]) w) = true).
Proof.
  split; [| split; [| split; [| split]]].
  - intros Hin.
    destruct (redraw_off_only_behind_timer m w Hin) as (Hm & Hoff & Hr & Hc).
    repeat (split; [assumption|]).
    destruct (before_base_mdi m w Hm) as [Hred Htim]. cbn zeta in Hred, Htim.
    rewrite Hoff, (proj2 (Z.eqb_neq _ _) Hr) in Hred, Htim.
    cbn [andb negb] in Hred, Htim. rewrite Hred, Htim. split; [reflexivity|].
    apply elem_of_union_l, elem_of_singleton. reflexivity.
  - intros Ht Hid.
    destruct (before_base_tick m w Ht Hid) as (Hred & Htim).
    rewrite Htim. repeat split; [exact (calls_tick m w Ht Hid) | exact Hred |].
    intros [_ H]%elem_of_difference. apply H, elem_of_singleton. reflexivity.
  - apply handed_to_base.
  - apply deliver_inert.
  - intros ms tick Ht Hid Hb. rewrite run_deliver_last.
    rewrite (proj1 (deliver_inert tick _ Hb)).
    apply (before_base_tick tick _ Ht Hid).
Qed.

End Base.

(** The theorem at a base procedure that executes [WM_SETREDRAW]: the
    first MDI child is created, the timer ticks, and a [WM_SETREDRAW]
    switches redraw off through the base class, with no timer running;
    the next tick of timer 1612 switches it on again. *)
Lemma redraw_disabled_is_transient_witness :
  redraw (MDIClient.run redrawing_base sample_messages created) = false ∧
  timers (MDIClient.run redrawing_base sample_messages created) = ∅ ∧
  redraw (MDIClient.run redrawing_base (sample_messages ++ [msg_redraw_tick])
            created) = true.
Proof.
  split; [reflexivity|]. split; [vm_compute; reflexivity|].
  refine (proj2 (proj2 (proj2 (proj2
    (redraw_disabled_is_transient redrawing_base msg_redraw_tick created))))
    sample_messages msg_redraw_tick eq_refl eq_refl _).
  intros w. split; reflexivity.
Defined.

End MDIClientProps.

(** ** Frame types and the most-recently-used list: what is declared *)
Module FrameTypeProps.
Import FrameType Decl.

(** [FRAMETYPE] has six values, numbered from 0 to 5. *)
Lemma frame_types_six :
  (∀ t, t ∈ all_frame_types) ∧ NoDup all_frame_types ∧
  length all_frame_types = 6%nat ∧
  (∀ t, 0 ≤ enum_value t ≤ 5) ∧
  (∀ t u, enum_value t = enum_value u → t = u).
Proof.
  split; [intros t; destruct t; compute_done|].
  split; [compute_done|]. split; [reflexivity|].
  split; [intros t; destruct t; cbn; lia|].
  intros t u; destruct t, u; cbn; intros H; try reflexivity; discriminate H.
Qed.

(** There are six comparison kinds and five frame types besides
    [FRAME_OTHER]: whatever frame type each kind is given, if none is
    [FRAME_OTHER] then two kinds share one. *)
Lemma two_kinds_share_a_frame_type (classify : kind → FRAMETYPE) :
  (∀ k, classify k ≠ FRAME_OTHER) →
  ∃ k1 k2, k1 ≠ k2 ∧ classify k1 = classify k2.
Proof.
  intros Hno.
  pose proof (Hno Folder) as H1. pose proof (Hno Text) as H2.
  pose proof (Hno Table) as H3. pose proof (Hno Hex) as H4.
  pose proof (Hno Image) as H5. pose proof (Hno WebPage) as H6.
  destruct (classify Folder) eqn:E1; try contradiction;
    destruct (classify Text) eqn:E2; try contradiction;
    try (exists Folder, Text; split; [discriminate | congruence]);
    destruct (classify Table) eqn:E3; try contradiction;
    try (exists Folder, Table; split; [discriminate | congruence]);
    try (exists Text, Table; split; [discriminate | congruence]);
    destruct (classify Hex) eqn:E4; try contradiction;
    try (exists Folder, Hex; split; [discriminate | congruence]);
    try (exists Text, Hex; split; [discriminate | congruence]);
    try (exists Table, Hex; split; [discriminate | congruence]);
    destruct (classify Image) eqn:E5; try contradiction;
    try (exists Folder, Image; split; [discriminate | congruence]);
    try (exists Text, Image; split; [discriminate | congruence]);
    try (exists Table, Image; split; [discriminate | congruence]);
    try (exists Hex, Image; split; [discriminate | congruence]);
    destruct (classify WebPage) eqn:E6; try contradiction;
    try (exists Folder, WebPage; split; [discriminate | congruence]);
    try (exists Text, WebPage; split; [discriminate | congruence]);
    try (exists Table, WebPage; split; [discriminate | congruence]);
    try (exists Hex, WebPage; split; [discriminate | congruence]);
    try (exists Image, WebPage; split; [discriminate | congruence]).
Qed.

(** [GetFrameType] is declared with a pointer to a [const] frame window
    and the result type [FRAMETYPE]; [addToMru] is declared with the
    default 20 for [nMaxItems]. *)
Lemma declared_frame_type_and_mru :
  fun_result GetFrameType = Named N_FRAMETYPE ∧
  par_type <$> param GetFrameType "pFrame"
    = Some (Pointer (Const (Named N_CFrameWnd))) ∧
  par_default <$> param addToMru "nMaxItems" = Some (Some (DefNumber 20)) ∧
  par_type <$> param addToMru "nMaxItems" = Some UInt.
Proof. repeat split. Qed.

End FrameTypeProps.

(** ** The [OpenFileParams] family *)
Module ParamsProps.
Import Hierarchy Params.

(** The bound on the path length does not cut anything off. *)
Lemma subobjects_complete (c : cls) :
  subobjects_upto (S (length all_classes)) c = subobjects c.
Proof. destruct c; reflexivity. Qed.

Lemma lookup_complete (c : cls) (name : string) :
  lookup_upto (S (length all_classes)) c name = lookup c name.
Proof. destruct c; cbv - [declares]; reflexivity. Qed.

(** Every structure of the family has [OpenFileParams] as a base. *)
Lemma family_root (c : cls) : derives_from c OpenFileParams = true.
Proof. destruct c; reflexivity. Qed.

(** The records hold the declared members, subobject by subobject, under
    the declared names and types. *)
Lemma fields_as_declared (o : object) :
  (λ f : field, (f.1.1, f.1.2, type_of f.2)) <$> fields o =
  (λ pm : path * member, (pm.1, mem_name pm.2, mem_type pm.2))
    <$> all_members (class_of o).
Proof. destruct o; reflexivity. Qed.

(** Default construction gives every member its initializer, or the empty
    value of its type. *)
Lemma fields_default (c : cls) :
  Some <$> fields (default_object c) =
  (λ pm : path * member,
     (λ v, (pm.1, mem_name pm.2, v)) <$> initial_value pm.2)
    <$> all_members c.
Proof. destruct c; reflexivity. Qed.

(** C5. The [OpenFileParams] family is a hierarchy rooted in
    [OpenFileParams] whose objects are told apart by their class, and each
    structure adds exactly the options of its kind:
    [OpenTableFileParams] adds to [OpenTextFileParams] an optional field
    delimiter, an optional quote character and an optional
    newlines-in-quotes flag; [OpenBinaryFileParams] adds a start offset,
    -1 by default, and a save-as path; [OpenImageFileParams] adds x and y
    coordinates, -1 by default, and a save-as path; [OpenWebPageParams]
    adds nothing; [OpenFolderParams] adds the list of hidden items. *)
Theorem params_carry_their_options :
  (∀ c, derives_from c OpenFileParams = true) ∧
  (∀ o, (λ f : field, (f.1.1, f.1.2, type_of f.2)) <$> fields o =
        (λ pm : path * member, (pm.1, mem_name pm.2, mem_type pm.2))
          <$> all_members (class_of o)) ∧
  (bases OpenTableFileParams = [OpenTextFileParams] ∧
   ∀ x, added_fields (ObjTable x) =
     [([OpenTableFileParams], "m_tableDelimiter",
         VOptChar (OpenTableFileParams.m_tableDelimiter x));
      ([OpenTableFileParams], "m_tableQuote",
         VOptChar (OpenTableFileParams.m_tableQuote x));
      ([OpenTableFileParams], "m_tableAllowNewlinesInQuotes",
         VOptBool (OpenTableFileParams.m_tableAllowNewlinesInQuotes x))]) ∧
  (bases OpenBinaryFileParams = [OpenFileParams] ∧
   (∀ x, added_fields (ObjBinary x) =
     [([OpenBinaryFileParams], "m_address",
         VInt (OpenBinaryFileParams.m_address x));
      ([OpenBinaryFileParams], "m_strSaveAsPath",
         VString (OpenBinaryFileParams.m_strSaveAsPath x))]) ∧
   OpenBinaryFileParams.m_address OpenBinaryFileParams.default = -1) ∧
  (bases OpenImageFileParams = [OpenFileParams] ∧
   (∀ x, added_fields (ObjImage x) =
     [([OpenImageFileParams], "m_x", VInt (OpenImageFileParams.m_x x));
      ([OpenImageFileParams], "m_y", VInt (OpenImageFileParams.m_y x));
      ([OpenImageFileParams], "m_strSaveAsPath",
         VString (OpenImageFileParams.m_strSaveAsPath x))]) ∧
   OpenImageFileParams.m_x OpenImageFileParams.default = -1 ∧
   OpenImageFileParams.m_y OpenImageFileParams.default = -1) ∧
  (bases OpenWebPageParams = [OpenFileParams] ∧
   ∀ x, added_fields (ObjWebPage x) = [] ∧ fields (ObjWebPage x) = []) ∧
  (bases OpenFolderParams = [OpenFileParams] ∧
   ∀ x, added_fields (ObjFolder x) =
     [([OpenFolderParams], "m_hiddenItems",
         VStrings (OpenFolderParams.m_hiddenItems x))]) ∧
  (∀ c, Some <$> fields (default_object c) =
        (λ pm : path * member,
           (λ v, (pm.1, mem_name pm.2, v)) <$> initial_value pm.2)
          <$> all_members c).
Proof.
  split; [exact family_root|].
  split; [exact fields_as_declared|].
  repeat split; try reflexivity.
  exact fields_default.
Qed.

Import OpenAutoFileParams.

Lemma save_path_lookup :
  lookup Hierarchy.OpenAutoFileParams "m_strSaveAsPath" =
  [path_text; path_binary; path_image].
Proof. reflexivity. Qed.

Lemma save_path_cases (p : path) :
  p ∈ lookup Hierarchy.OpenAutoFileParams "m_strSaveAsPath" →
  p = path_text ∨ p = path_binary ∨ p = path_image.
Proof.
  rewrite save_path_lookup, !elem_of_cons, elem_of_nil. tauto.
Qed.

(** Writing through one subobject is read back there and changes neither
    of the two other members. *)
Lemma save_path_write_read (p q : path) (v : string) (x : t) :
  p ∈ lookup Hierarchy.OpenAutoFileParams "m_strSaveAsPath" →
  q ∈ lookup Hierarchy.OpenAutoFileParams "m_strSaveAsPath" →
  read_m_strSaveAsPath p (write_m_strSaveAsPath p v x) = Some v ∧
  (p ≠ q →
   read_m_strSaveAsPath q (write_m_strSaveAsPath p v x) =
   read_m_strSaveAsPath q x).
Proof.
  intros Hp Hq.
  destruct (save_path_cases p Hp) as [-> | [-> | ->]];
    destruct (save_path_cases q Hq) as [-> | [-> | ->]];
    (split; [reflexivity | intros Hne; try reflexivity; contradiction]).
Qed.

(** What is read through a subobject is the value the record holds
    there. *)
Lemma save_path_read_field (p : path) (x : t) :
  p ∈ lookup Hierarchy.OpenAutoFileParams "m_strSaveAsPath" →
  ∃ v, read_m_strSaveAsPath p x = Some v ∧
       (p, "m_strSaveAsPath", VString v) ∈ fields (ObjAuto x).
Proof.
  intros Hp.
  destruct (save_path_cases p Hp) as [-> | [-> | ->]];
    (eexists; split; [reflexivity|]); cbn;
    rewrite !elem_of_cons; tauto.
Qed.

(** C6, as it is stated, fails: the members named [m_strSaveAsPath] of an
    [OpenAutoFileParams] object are not just the two inherited through
    [OpenBinaryFileParams] and [OpenImageFileParams].  The object below
    holds three different strings under that name. *)
Lemma auto_params_third_save_path :
  (path_text ∈ lookup Hierarchy.OpenAutoFileParams "m_strSaveAsPath" ∧
   path_text ∉ [path_binary; path_image]) ∧
  length (lookup Hierarchy.OpenAutoFileParams "m_strSaveAsPath") ≠ 2%nat ∧
  (let x := set_text_m_strSaveAsPath "text_output.txt" usage_example in
   fields (ObjAuto x) !! 6%nat =
     Some (path_text, "m_strSaveAsPath", VString "text_output.txt") ∧
   fields (ObjAuto x) !! 8%nat =
     Some (path_binary, "m_strSaveAsPath", VString "binary_output.bin") ∧
   fields (ObjAuto x) !! 11%nat =
     Some (path_image, "m_strSaveAsPath", VString "image_output.png")).
Proof.
  split; [split|split].
  - rewrite save_path_lookup. apply list_elem_of_here.
  - rewrite !elem_of_cons, elem_of_nil. intros [H | [H | []]]; discriminate H.
  - rewrite save_path_lookup. cbn. lia.
  - repeat split.
Qed.

(** C6, amended. [OpenAutoFileParams] derives from
    [OpenTableFileParams], [OpenBinaryFileParams] and
    [OpenImageFileParams], which all have [OpenFileParams] as a base
    (a diamond in the class graph).  An
    [OpenAutoFileParams] object holds three members [m_strSaveAsPath]: the
    one declared in [OpenTextFileParams], inherited through
    [OpenTableFileParams], the one of [OpenBinaryFileParams] and the one of
    [OpenImageFileParams].  The unqualified name is ambiguous, the name
    qualified with a base class selects one member, and an assignment to
    one of the three is read back there and leaves the two others as they
    were. *)
Theorem auto_params_save_paths :
  bases Hierarchy.OpenAutoFileParams =
    [Hierarchy.OpenTableFileParams; Hierarchy.OpenBinaryFileParams;
     Hierarchy.OpenImageFileParams] ∧
  (∀ b, b ∈ bases Hierarchy.OpenAutoFileParams →
        derives_from b Hierarchy.OpenFileParams = true) ∧
  lookup Hierarchy.OpenAutoFileParams "m_strSaveAsPath" =
    [path_text; path_binary; path_image] ∧
  NoDup [path_text; path_binary; path_image] ∧
  unqualified_access Hierarchy.OpenAutoFileParams "m_strSaveAsPath" = None ∧
  qualified_access Hierarchy.OpenAutoFileParams Hierarchy.OpenBinaryFileParams
    "m_strSaveAsPath" = Some path_binary ∧
  qualified_access Hierarchy.OpenAutoFileParams Hierarchy.OpenImageFileParams
    "m_strSaveAsPath" = Some path_image ∧
  qualified_access Hierarchy.OpenAutoFileParams Hierarchy.OpenTableFileParams
    "m_strSaveAsPath" = Some path_text ∧
  qualified_access Hierarchy.OpenAutoFileParams Hierarchy.OpenTextFileParams
    "m_strSaveAsPath" = Some path_text ∧
  (∀ (p q : path) (v : string) (x : t),
     p ∈ lookup Hierarchy.OpenAutoFileParams "m_strSaveAsPath" →
     q ∈ lookup Hierarchy.OpenAutoFileParams "m_strSaveAsPath" →
     read_m_strSaveAsPath p (write_m_strSaveAsPath p v x) = Some v ∧
     (p, "m_strSaveAsPath", VString v)
       ∈ fields (ObjAuto (write_m_strSaveAsPath p v x)) ∧
     (p ≠ q →
      read_m_strSaveAsPath q (write_m_strSaveAsPath p v x) =
      read_m_strSaveAsPath q x)).
Proof.
  split; [reflexivity|].
  split; [intros b _; apply family_root|].
  split; [exact save_path_lookup|].
  split.
  { repeat constructor; rewrite ?elem_of_cons, ?elem_of_nil;
      intros H; repeat destruct H as [H | H]; try discriminate H; exact H. }
  do 5 (split; [reflexivity|]).
  intros p q v x Hp Hq.
  destruct (save_path_write_read p q v x Hp Hq) as [Hrd Hother].
  split; [exact Hrd|]. split; [| exact Hother].
  destruct (save_path_read_field p (write_m_strSaveAsPath p v x) Hp)
    as (v' & Hv' & Hin).
  rewrite Hrd in Hv'. injection Hv' as <-. exact Hin.
Qed.

(** The assignments of the usage comment in the header: the binary path
    is set and the image path stays what it was. *)
Lemma auto_params_save_paths_witness :
  read_m_strSaveAsPath path_binary
    (write_m_strSaveAsPath path_binary "binary_output.bin" default)
    = Some "binary_output.bin" ∧
  read_m_strSaveAsPath path_image
    (write_m_strSaveAsPath path_binary "binary_output.bin" default)
    = read_m_strSaveAsPath path_image default.
Proof.
  pose proof (proj2 (proj2 (proj2 (proj2 (proj2 (proj2 (proj2 (proj2 (proj2
    auto_params_save_paths))))))))) as H.
  assert (Hb : path_binary ∈ lookup Hierarchy.OpenAutoFileParams "m_strSaveAsPath").
  { rewrite save_path_lookup, !elem_of_cons. tauto. }
  assert (Hi : path_image ∈ lookup Hierarchy.OpenAutoFileParams "m_strSaveAsPath").
  { rewrite save_path_lookup, !elem_of_cons. tauto. }
  destruct (H path_binary path_image "binary_output.bin" default Hb Hi)
    as (Hrd & _ & Hother).
  split; [exact Hrd|]. apply Hother. discriminate.
Defined.

End ParamsProps.

(** ** The declared open and show operations *)
Module DeclProps.
Import Decl Call.

(** An object the callee cannot reach is the same after the call,
    whatever the body does. *)
Lemma write_back_frame (ps : list parameter) (args : list arg)
    (outs : list (option obj)) (h : heap) (x : Z) :
  x ∉ reachable ps args → write_back ps args outs h !! x = h !! x.
Proof.
  revert args outs h.
  induction ps as [| p ps IH]; intros args outs h Hx; [reflexivity|].
  destruct args as [| a args]; [reflexivity|].
  destruct outs as [| o outs]; [reflexivity|].
  cbn [write_back reachable] in *.
  destruct (reaches p a) as [y |].
  - apply not_elem_of_cons in Hx as [Hne Hx].
    rewrite IH by exact Hx. destruct o as [v |]; [| reflexivity].
    apply lookup_insert_ne. congruence.
  - rewrite IH by exact Hx. destruct o; reflexivity.
Qed.

(** A call that is passed no object leaves every object as it is. *)
Lemma call_untouched (Frame R : Type) (f : mem_fun) (b : body Frame R)
    (fr : Frame) (h : heap) (args : list arg) :
  reachable (fun_params f) args = [] → (call Frame R f b fr h args).2 = h.
Proof.
  intros Hno. unfold call. cbn [snd]. apply map_eq. intros x.
  apply write_back_frame. rewrite Hno. apply not_elem_of_nil.
Qed.

(** The fifteen declarations of the open and show operations, as they are
    written in the header: the result type is [bool]; the only parameter
    that is a pointer, reference or array to something not [const] is
    [IDirDoc * pDirDoc]; a parameter [pFiles] is a pointer to
    [const PathContext]; and the operations without [pDirDoc] are the five
    that are named. *)
Lemma open_show_signatures :
  Forall (λ f,
      fun_result f = Bool ∧
      Forall (λ p, declared_writable (par_type p) = true →
                   par_type p = Pointer (Named N_IDirDoc) ∧
                   par_name p = "pDirDoc")
        (fun_params f) ∧
      Forall (λ p, par_name p = "pFiles" →
                   par_type p = Pointer (Const (Named N_PathContext)))
        (fun_params f) ∧
      (param f "pDirDoc" = None ↔
       fun_name f ∈ ["DoFileOpen"; "DoFileNew"; "DoOpenConflict";
                     "DoOpenClipboard"; "DoSelfCompare"]))
    open_show_operations ∧
  Forall (λ name, declared name ≠ []) open_show_names ∧
  length open_show_operations = 15%nat ∧
  is_Some (param DoFileOrFolderOpen "pFiles") ∧
  is_Some (param DoFileOpen "pFiles").
Proof. repeat split; compute_done. Qed.

(** What the declarations of the open and show operations say to a
    caller.  Each returns [bool].  The only object a declaration lets the
    operation write to is the folder document passed as
    [IDirDoc * pDirDoc]: every other pointer, reference or array parameter
    is declared to [const], and a path context [pFiles] is a pointer to
    [const PathContext].  The operations that have no [pDirDoc] are
    exactly [DoFileOpen], [DoFileNew], [DoOpenConflict], [DoOpenClipboard]
    and [DoSelfCompare], and these declare every object they are passed
    [const].  This is read off the declarations; the bodies, which could
    cast [const] away, are not in the header. *)
Theorem only_dirdoc_is_declared_writable (f : mem_fun) :
  f ∈ open_show_operations →
  fun_result f = Bool ∧
  (∀ p, p ∈ fun_params f → declared_writable (par_type p) = true →
        par_type p = Pointer (Named N_IDirDoc) ∧ par_name p = "pDirDoc") ∧
  (∀ p, p ∈ fun_params f → par_name p = "pFiles" →
        par_type p = Pointer (Const (Named N_PathContext))) ∧
  (param f "pDirDoc" = None ↔
   fun_name f ∈ ["DoFileOpen"; "DoFileNew"; "DoOpenConflict";
                 "DoOpenClipboard"; "DoSelfCompare"]) ∧
  (param f "pDirDoc" = None →
   ∀ p, p ∈ fun_params f → refers (par_type p) = true →
        ∃ t, par_type p = Pointer (Const t) ∨ par_type p = Reference (Const t) ∨
             par_type p = Array (Const t)).
Proof.
  intros Hf.
  pose proof (proj1 (Forall_forall _ _) (proj1 open_show_signatures) f Hf)
    as (Hres & Hwr & Hpf & Hdd).
  rewrite Forall_forall in Hwr, Hpf.
  split; [exact Hres|]. split; [exact Hwr|]. split; [exact Hpf|].
  split; [exact Hdd|].
  intros Hno p Hp Hrefers.
  destruct (declared_writable (par_type p)) eqn:Hw.
  - exfalso. destruct (Hwr p Hp Hw) as [_ Hname].
    unfold param in Hno. apply head_None in Hno.
    assert (Hin : p ∈ filter (λ q, par_name q = "pDirDoc") (fun_params f)).
    { apply list_elem_of_filter. split; assumption. }
    rewrite Hno in Hin. apply elem_of_nil in Hin. exact Hin.
  - destruct (par_type p) as [| | | | n | t | t | t | t | t | t];
      try discriminate Hrefers;
      destruct t; try discriminate Hw; eauto.
Qed.

(** The declared [const] does not bind a body.  Called with a body that
    leaves an empty path context in every object it is given, [DoFileOpen]
    empties the path context passed as [pFiles]: what the operations do to
    the objects they are passed is decided by their bodies, which are in
    [MainFrm.cpp]. *)
Lemma const_does_not_bind :
  (call Z bool DoFileOpen CallDefaults.counting_body 0 sample_heap
     [ArgNumber 0; ArgAddress 16]).2 !! 16 = Some (ObjPathContext []).
Proof. vm_compute. reflexivity. Qed.

(** The theorem at [DoFileOpen]: it has no [pDirDoc], and its [pFiles] is
    a pointer to [const PathContext]. *)
Lemma only_dirdoc_is_declared_writable_witness :
  param DoFileOpen "pDirDoc" = None ∧
  par_type <$> param DoFileOpen "pFiles" =
    Some (Pointer (Const (Named N_PathContext))).
Proof.
  assert (Hin : DoFileOpen ∈ open_show_operations) by compute_done.
  destruct (only_dirdoc_is_declared_writable DoFileOpen Hin)
    as (_ & _ & _ & Hdd & _).
  split; [| reflexivity].
  apply (proj2 Hdd). compute_done.
Defined.

End DeclProps.

(** ** The session opener and the tracking lists *)
Module OpenerProps.
Import Decl Call Opener.

(** The show operation a kind is delegated to is one the header declares
    for that kind. *)
(** Every tracking list is returned by a getter the header declares. *)
Lemma tracking_lists_declared :
  Forall (λ l, getter l ∈ declarations ∧ fun_params (getter l) = [])
    all_tracking ∧
  NoDup (getter <$> all_tracking).
Proof. split; compute_done. Qed.

Lemma delegate_shows (k : kind) (f : mem_fun) :
  delegate k = Some f → f ∈ shows k.
Proof. destruct k; intros [= <-]; compute_done. Qed.

(** No show operation is declared for folders, and none takes
    [OpenFolderParams]. *)
Lemma folder_has_no_show_operation :
  shows Folder = [] ∧
  filter (λ f, open_params_class f = Some Hierarchy.OpenFolderParams)
    show_operations = [] ∧
  delegate Folder = None.
Proof. repeat split; vm_compute; reflexivity. Qed.

(** The declared types of [pOpenParams] in the show operations of each
    kind. *)
Lemma show_params_types :
  Forall (λ f, open_params_class f = Some Hierarchy.OpenTextFileParams)
    (shows Text ++ shows Table) ∧
  Forall (λ f, open_params_class f = Some Hierarchy.OpenBinaryFileParams)
    (shows Hex) ∧
  Forall (λ f, open_params_class f = Some Hierarchy.OpenImageFileParams)
    (shows Image) ∧
  Forall (λ f, open_params_class f = Some Hierarchy.OpenWebPageParams)
    (shows WebPage).
Proof. repeat split; compute_done. Qed.

(** The options of a kind convert to the parameter type of the show
    operation the kind is delegated to. *)
Lemma delegate_accepts (k : kind) (f : mem_fun) :
  delegate k = Some f →
  ∃ c, open_params_class f = Some c ∧
       Hierarchy.converts_to (params_of_kind k) c = true.
Proof.
  destruct k; intros [= <-]; eexists; split;
    try (vm_compute; reflexivity).
Qed.

Lemma pass_own_params (k : kind) (f : mem_fun) (o : Params.object) :
  delegate k = Some f → Params.class_of o = params_of_kind k →
  pass_params f (Some o) = Some o.
Proof.
  intros Hd Ho. destruct (delegate_accepts k f Hd) as (c & Hc & Hconv).
  unfold pass_params. rewrite Hc, Ho, Hconv. reflexivity.
Qed.

Lemma shows_same_params (k : kind) (f f' : mem_fun) :
  delegate k = Some f → f' ∈ shows k →
  open_params_class f' = open_params_class f.
Proof.
  destruct show_params_types as (Htext & Hhex & Himg & Hweb).
  rewrite Forall_app in Htext. destruct Htext as [Htext Htable].
  rewrite Forall_forall in Htext, Htable, Hhex, Himg, Hweb.
  destruct k; intros [= <-] Hf'.
  - rewrite (Htext f' Hf'). reflexivity.
  - rewrite (Htable f' Hf'). reflexivity.
  - rewrite (Hhex f' Hf'). reflexivity.
  - rewrite (Himg f' Hf'). reflexivity.
  - rewrite (Hweb f' Hf'). reflexivity.
Qed.

(** The opener hands a chosen file kind to its show operation, and its
    result is the result of that operation. *)
Lemma open_session_delegates
    (choose : entry → PathContext → option Hierarchy.cls → option kind)
    (e : entry) (pc : PathContext) (params : option Params.object)
    (loaded : bool) (fr : Frame) (k : kind) (f : mem_fun) :
  well_formed pc = true →
  choose e pc (Params.class_of <$> params) = Some k →
  delegate k = Some f →
  open_session choose e pc params loaded fr
    = show f k (pass_params f params) loaded fr ∧
  (open_session choose e pc params loaded fr).1 = loaded.
Proof.
  intros Hwf Hk Hd. unfold open_session. rewrite Hwf, Hk, Hd.
  split; [reflexivity|].
  unfold show. rewrite (bool_decide_eq_true_2 _ (delegate_shows k f Hd)).
  unfold instantiate. destruct loaded; reflexivity.
Qed.

(** C3, as it is stated, fails for the folder kind: folder is one of the
    kinds the opener decides between, but the header declares no show
    operation for it, and no show operation takes [OpenFolderParams]. *)
Lemma folder_has_no_matching_show_operation :
  Folder ∈ all_kinds ∧
  shows Folder = [] ∧
  filter (λ f, open_params_class f = Some (params_of_kind Folder))
    show_operations = [] ∧
  fun_name <$> show_operations =
    ["ShowAutoMergeDoc"; "ShowMergeDoc"; "ShowTextOrTableMergeDoc";
     "ShowTextMergeDoc"; "ShowTextMergeDoc"; "ShowTableMergeDoc";
     "ShowHexMergeDoc"; "ShowImgMergeDoc"; "ShowWebDiffDoc"].
Proof.
  split; [compute_done|].
  destruct folder_has_no_show_operation as (H1 & H2 & _).
  split; [exact H1|]. split; [exact H2|]. vm_compute. reflexivity.
Qed.

(** C3, amended. For each of the kinds text, table, hex, image and web
    page there is a show operation whose argument [pOpenParams] is typed
    with the structure of that kind: text and table take
    [OpenTextFileParams], hex takes [OpenBinaryFileParams], image takes
    [OpenImageFileParams], web page takes [OpenWebPageParams]; the options
    of the kind convert to that type.  The session opener takes a path
    set, flags and a pointer to [OpenFileParams], decides which kind to
    instantiate, and for these five kinds delegates to the show operation
    of the kind and returns its result.  For the folder kind no show
    operation is declared. *)
Theorem show_operation_of_each_file_kind (k : kind) :
  k ≠ Folder →
  ∃ f,
    delegate k = Some f ∧
    f ∈ shows k ∧
    open_params_class f =
      Some (match k with
            | Text | Table => Hierarchy.OpenTextFileParams
            | Hex => Hierarchy.OpenBinaryFileParams
            | Image => Hierarchy.OpenImageFileParams
            | WebPage => Hierarchy.OpenWebPageParams
            | Folder => Hierarchy.OpenFolderParams
            end) ∧
    (∀ f', f' ∈ shows k → open_params_class f' = open_params_class f) ∧
    (∀ o, Params.class_of o = params_of_kind k → pass_params f (Some o) = Some o) ∧
    (∀ choose e pc params loaded fr,
       well_formed pc = true →
       choose e pc (Params.class_of <$> params) = Some k →
       open_params_class (entry_decl e) = Some Hierarchy.OpenFileParams ∧
       open_session choose e pc params loaded fr
         = show f k (pass_params f params) loaded fr ∧
       (open_session choose e pc params loaded fr).1 = loaded) ∧
    shows Folder = [].
Proof.
  intros Hk.
  destruct (delegate k) as [f |] eqn:Hd; [| destruct k; [contradiction | discriminate Hd ..]].
  exists f. split; [reflexivity|].
  split; [exact (delegate_shows k f Hd)|].
  split.
  { destruct k; try contradiction; injection Hd as <-; reflexivity. }
  split; [intros f' Hf'; exact (shows_same_params k f f' Hd Hf')|].
  split; [intros o Ho; exact (pass_own_params k f o Hd Ho)|].
  split; [| exact (proj1 folder_has_no_show_operation)].
  intros choose e pc params loaded fr Hwf Hch.
  split; [destruct e; reflexivity|].
  exact (open_session_delegates choose e pc params loaded fr k f Hwf Hch Hd).
Qed.

(** The theorem for table compares: they are shown by
    [ShowTableMergeDoc], which takes [OpenTextFileParams]. *)
Lemma show_operation_of_each_file_kind_witness :
  ∃ f, delegate Table = Some f ∧
       open_params_class f = Some Hierarchy.OpenTextFileParams.
Proof.
  destruct (show_operation_of_each_file_kind Table ltac:(discriminate))
    as (f & Hd & _ & Hty & _).
  exists f. split; [exact Hd | exact Hty].
Defined.

Section Chooser.

Variable choose : entry → PathContext → option Hierarchy.cls → option kind.

Abbreviation step := (Opener.step choose).
Abbreviation run := (Opener.run choose).
Abbreviation kind_of := (Opener.kind_of choose).

(** A request that opens a session either fails and leaves the frame as
    it is, or registers the next handle in the list of its kind. *)
Lemma step_opens (rq : request) (fr : Frame) :
  opens rq →
  step rq fr =
    match kind_of rq with
    | Some k => (true, register (tracked_in k) fr)
    | None => (false, fr)
    end.
Proof.
  destruct rq as [e pc params loaded | f k params loaded | d];
    cbn [opens Opener.step Opener.kind_of]; [| | contradiction]; intros _.
  - unfold open_session. destruct (well_formed pc); [| reflexivity].
    cbn [andb].
    destruct (choose e pc (Params.class_of <$> params)) as [k |];
      [| destruct loaded; reflexivity].
    destruct (delegate k) as [f |] eqn:Hd.
    + unfold show. rewrite (bool_decide_eq_true_2 _ (delegate_shows k f Hd)).
      unfold instantiate. destruct loaded; reflexivity.
    + unfold instantiate. destruct loaded; reflexivity.
  - unfold show. destruct (bool_decide (f ∈ shows k)); cbn [andb]; [| reflexivity].
    unfold instantiate. destruct loaded; reflexivity.
Qed.

Lemma run_step_last (rqs : list request) (rq : request) (fr : Frame) :
  run (rqs ++ [rq]) fr = (step rq (run rqs fr)).2.
Proof. unfold Opener.run. rewrite fold_left_app. reflexivity. Qed.

Lemma GetAll_register_same (l : tracking) (fr : Frame) :
  GetAll (register l fr) l = GetAll fr l ++ [next_doc fr].
Proof. cbn. destruct (decide (l = l)); [reflexivity | contradiction]. Qed.

Lemma GetAll_register_other (l l' : tracking) (fr : Frame) :
  l' ≠ l → GetAll (register l fr) l' = GetAll fr l'.
Proof. intros Hne. cbn. destruct (decide (l' = l)); [contradiction | reflexivity]. Qed.

Lemma elem_of_register (l l' : tracking) (d : Doc) (fr : Frame) :
  d ∈ GetAll (register l fr) l' ↔
  d ∈ GetAll fr l' ∨ (l' = l ∧ d = next_doc fr).
Proof.
  cbn. destruct (decide (l' = l)) as [-> | Hne].
  - rewrite elem_of_app, list_elem_of_singleton. tauto.
  - tauto.
Qed.

Lemma elem_of_unregister (l : tracking) (d d' : Doc) (fr : Frame) :
  d' ∈ GetAll (unregister d fr) l ↔ d' ∈ GetAll fr l ∧ d' ≠ d.
Proof. cbn. rewrite list_elem_of_filter. tauto. Qed.

Lemma step_bounded (rq : request) (fr : Frame) :
  bounded fr →
  bounded (step rq fr).2 ∧ (next_doc fr ≤ next_doc (step rq fr).2)%nat.
Proof.
  intros Hb. destruct rq as [e pc params loaded | f k params loaded | d].
  1, 2: rewrite step_opens by exact I;
    match goal with |- context [kind_of ?rq] => destruct (kind_of rq) end; cbn;
    [ split; [| lia]; intros l d [Hd | [_ ->]]%elem_of_register;
        [apply Hb in Hd | ]; cbn; lia
    | split; [exact Hb | lia] ].
  cbn. split; [| lia].
  intros l d' [Hd _]%elem_of_unregister. exact (Hb l d' Hd).
Qed.

Lemma run_bounded (rqs : list request) (fr : Frame) :
  bounded fr → bounded (run rqs fr).
Proof.
  revert fr. induction rqs as [| rq rqs IH]; intros fr Hb; [exact Hb|].
  cbn. apply IH, step_bounded, Hb.
Qed.

Lemma empty_bounded : bounded empty_frame.
Proof. intros l d Hd. cbn in Hd. apply elem_of_nil in Hd. contradiction. Qed.

Lemma registrations_sum (d : Doc) (fr : Frame) :
  registrations d fr =
  (count d (GetAll fr OpenDocs) + count d (GetAll fr MergeDocs) +
   count d (GetAll fr DirDocs) + count d (GetAll fr HexMergeDocs) +
   count d (GetAll fr ImgMergeFrames) + count d (GetAll fr WebPageDiffFrames))%nat.
Proof.
  unfold registrations, count. cbn.
  rewrite !filter_app, !length_app. cbn. lia.
Qed.

Lemma count_zero (d : Doc) (ds : list Doc) : d ∉ ds → count d ds = 0%nat.
Proof.
  intros Hd. unfold count.
  induction ds as [| x ds IH]; [reflexivity|].
  apply not_elem_of_cons in Hd as [Hne Hd].
  rewrite filter_cons. destruct (decide (x = d)); [congruence | apply IH, Hd].
Qed.

Lemma count_pos (d : Doc) (ds : list Doc) : d ∈ ds → (0 < count d ds)%nat.
Proof.
  intros Hd. unfold count.
  induction ds as [| x ds IH]; [apply elem_of_nil in Hd; contradiction|].
  rewrite filter_cons. destruct (decide (x = d)); [cbn; lia|].
  apply elem_of_cons in Hd as [-> | Hd]; [congruence | apply IH, Hd].
Qed.

Lemma count_snoc (d x : Doc) (ds : list Doc) :
  count d (ds ++ [x]) = (count d ds + if decide (x = d) then 1 else 0)%nat.
Proof.
  unfold count. rewrite filter_app, length_app, filter_cons, filter_nil.
  destruct (decide (x = d)); reflexivity.
Qed.

Lemma count_filter_other (d d' : Doc) (ds : list Doc) :
  d ≠ d' → count d (filter (λ x, x ≠ d') ds) = count d ds.
Proof.
  intros Hne. unfold count.
  induction ds as [| x ds IH]; [reflexivity|].
  rewrite !filter_cons.
  destruct (decide (x ≠ d')) as [Hx | Hx].
  - rewrite filter_cons. destruct (decide (x = d)); cbn; rewrite IH; reflexivity.
  - destruct (decide (x = d)) as [-> | _]; [| exact IH].
    exfalso. apply Hx. exact Hne.
Qed.

Lemma count_filter_same (d : Doc) (ds : list Doc) :
  count d (filter (λ x, x ≠ d) ds) = 0%nat.
Proof.
  apply count_zero. intros [H _]%list_elem_of_filter. apply H. reflexivity.
Qed.

Lemma registrations_fresh (d : Doc) (fr : Frame) :
  bounded fr → (next_doc fr ≤ d)%nat → registrations d fr = 0%nat.
Proof.
  intros Hb Hd. rewrite registrations_sum.
  rewrite !count_zero; [reflexivity | ..];
    intros Hin; apply Hb in Hin; lia.
Qed.

Lemma registrations_register (d : Doc) (l : tracking) (fr : Frame) :
  registrations d (register l fr) =
  (registrations d fr + if decide (next_doc fr = d) then 1 else 0)%nat.
Proof.
  rewrite !registrations_sum.
  destruct l;
    rewrite GetAll_register_same, !GetAll_register_other by discriminate;
    rewrite count_snoc; lia.
Qed.

Lemma registrations_unregister (d d' : Doc) (fr : Frame) :
  registrations d (unregister d' fr) =
  if decide (d = d') then 0%nat else registrations d fr.
Proof.
  rewrite !registrations_sum. cbn [GetAll unregister].
  destruct (decide (d = d')) as [-> | Hne].
  - rewrite !count_filter_same. reflexivity.
  - rewrite !count_filter_other by exact Hne. reflexivity.
Qed.

(** A tracked session stays in its list, and only there, as long as it
    is not closed. *)
Lemma tracked_until_closed (later : list request) (d : Doc) (l : tracking)
    (fr : Frame) :
  bounded fr → (d < next_doc fr)%nat →
  (∀ l', d ∈ GetAll fr l' ↔ l' = l) → registrations d fr = 1%nat →
  Forall (λ rq, ¬ closes d rq) later →
  (∀ l', d ∈ GetAll (run later fr) l' ↔ l' = l) ∧
  registrations d (run later fr) = 1%nat.
Proof.
  revert fr. induction later as [| rq later IH];
    intros fr Hb Hd Hin Hreg Hlater; [split; assumption|].
  apply Forall_cons in Hlater as [Hrq Hlater]. cbn.
  destruct (step_bounded rq fr Hb) as [Hb' Hnext].
  apply IH; [exact Hb' | lia | | | exact Hlater].
  - intros l'. rewrite <- Hin.
    destruct rq as [e pc params loaded | f k params loaded | d'].
    1, 2: rewrite step_opens by exact I;
      match goal with |- context [kind_of ?rq] => destruct (kind_of rq) end;
      cbn [snd]; [rewrite elem_of_register; split; [intros [H | [_ ->]]|]; [tauto | lia | tauto] | tauto].
    cbn [Opener.step snd]. rewrite elem_of_unregister. cbn in Hrq. split; [tauto|].
    intros H. split; [exact H | congruence].
  - destruct rq as [e pc params loaded | f k params loaded | d'].
    1, 2: rewrite step_opens by exact I;
      match goal with |- context [kind_of ?rq] => destruct (kind_of rq) end;
      cbn [snd]; [rewrite registrations_register;
                  destruct (decide (next_doc fr = d)); lia | exact Hreg].
    cbn [Opener.step snd]. rewrite registrations_unregister. cbn in Hrq.
    destruct (decide (d = d')); [congruence | exact Hreg].
Qed.

(** C1. Whenever an open of a comparison session succeeds, through an
    open operation of the pipeline with a well-formed path context and a
    supported variant of the options or through a show operation, exactly
    one document/view kind is instantiated; the new document, which was in
    no list before, is appended to the tracking list of that kind and to no
    other list; and whatever is opened or closed later, as long as the
    session itself is not closed it is registered once, in that list; when
    it is closed it is in no list. *)
Theorem session_tracked_in_one_list (before : list request) (rq : request)
    (later : list request) :
  let fr := run before empty_frame in
  let d := next_doc fr in
  opens rq → (step rq fr).1 = true →
  Forall (λ rq', ¬ closes d rq') later →
  ∃ k, kind_of rq = Some k ∧
       (∀ k', kind_of rq = Some k' → k' = k) ∧
       registrations d fr = 0%nat ∧
       (∀ l, GetAll (step rq fr).2 l =
             if decide (l = tracked_in k) then GetAll fr l ++ [d]
             else GetAll fr l) ∧
       (∀ l, d ∈ GetAll (run later (step rq fr).2) l ↔ l = tracked_in k) ∧
       registrations d (run later (step rq fr).2) = 1%nat ∧
       registrations d (step (Close d) (run later (step rq fr).2)).2 = 0%nat.
Proof.
  intros fr d Hop Hok Hlater.
  assert (Hb : bounded fr) by apply run_bounded, empty_bounded.
  rewrite (step_opens rq fr Hop) in Hok |- *.
  destruct (kind_of rq) as [k |] eqn:Hk; [| discriminate Hok].
  exists k. cbn [snd].
  assert (Hfresh : registrations d fr = 0%nat)
    by (apply registrations_fresh; [exact Hb | unfold d; lia]).
  assert (Hb' : bounded (register (tracked_in k) fr)).
  { pose proof (step_bounded rq fr Hb) as [H _].
    rewrite (step_opens rq fr Hop), Hk in H. exact H. }
  assert (Hin : ∀ l, d ∈ GetAll (register (tracked_in k) fr) l ↔ l = tracked_in k).
  { intros l. rewrite elem_of_register. split.
    - intros [H | [H _]]; [apply Hb in H; unfold d in H; lia | exact H].
    - intros ->. right. split; reflexivity. }
  assert (Hone : registrations d (register (tracked_in k) fr) = 1%nat).
  { rewrite registrations_register, Hfresh.
    destruct (decide (next_doc fr = d)); [reflexivity | contradiction]. }
  destruct (tracked_until_closed later d (tracked_in k) _ Hb'
              ltac:(cbn; unfold d; lia) Hin Hone Hlater) as [Hstay Hreg].
  split; [reflexivity|]. split; [intros k' [= ->]; reflexivity|].
  split; [exact Hfresh|]. split; [intros l; reflexivity|].
  split; [exact Hstay|]. split; [exact Hreg|].
  cbn [Opener.step snd]. rewrite registrations_unregister.
  destruct (decide (d = d)); [reflexivity | contradiction].
Qed.

End Chooser.

(** The theorem for a hex compare opened through [DoFileOpen] after a
    folder compare and a table compare, with the folder compare closed
    afterwards. *)
Lemma session_tracked_in_one_list_witness :
  ∃ k, Opener.kind_of sample_choose sample_open = Some k ∧
       GetAll (Opener.run sample_choose (sample_requests ++ [sample_open; Close 0%nat])
                 empty_frame) (tracked_in k) = [2%nat].
Proof.
  assert (Hok : (Opener.step sample_choose sample_open
                   (Opener.run sample_choose sample_requests empty_frame)).1 = true)
    by (vm_compute; reflexivity).
  assert (Hlater :
    Forall (λ rq', ¬ closes
              (next_doc (Opener.run sample_choose sample_requests empty_frame)) rq')
      [Close 0%nat]).
  { repeat constructor. vm_compute. discriminate. }
  destruct (session_tracked_in_one_list sample_choose sample_requests sample_open
              [Close 0%nat] I Hok Hlater)
    as (k & Hk & _).
  exists k. split; [exact Hk|].
  vm_compute in Hk. injection Hk as <-. vm_compute. reflexivity.
Defined.

End OpenerProps.

(** ** More on the window procedure of the MDI client *)
Module MDIClientResultProps.
Import Win32 MDIClient MDIClientResult.

Section Base.

Variable CWnd_WindowProc : Z → Z → Z → Wnd → Z * Wnd.

Abbreviation deliver := (MDIClient.deliver CWnd_WindowProc).
Abbreviation calls := (MDIClient.calls CWnd_WindowProc).
Abbreviation run := (MDIClient.run CWnd_WindowProc).
Abbreviation result := (MDIClientResult.result CWnd_WindowProc).

Ltac proc_open :=
  unfold MDIClientResult.result, MDIClient.deliver, MDIClient.calls,
    WindowProc, BaseWindowProc, SendMessage_MDIGETACTIVE, SetTimer, KillTimer,
    SetRedraw, RedrawWindow, SetMenuBarState, AttachMenu, bind, ret, emit,
    update.

(** [WM_MDISETMENU] is handled by the procedure alone: the menu bar of
    the main frame is hidden and the menu passed in [wParam] is attached
    to it, the result is [TRUE], the base class never sees the message,
    and the redraw flag and the timers stay as they are.  This holds for
    every base procedure. *)
Theorem setmenu_is_handled_here (m : Msg) (w : Wnd) :
  msg_message m = WM_MDISETMENU →
  result m w = TRUE ∧
  calls m w = [CallSetMenuBarState AFX_MBS_HIDDEN; CallAttachMenu (msg_wParam m)] ∧
  deliver m w =
    {| redraw := redraw w; timers := timers w;
       menuBarState := AFX_MBS_HIDDEN; attachedMenu := Some (msg_wParam m) |}.
Proof.
  intros Hm. proc_open. rewrite Hm. cbn. repeat split.
Qed.

(** A message that is not [WM_MDICREATE], [WM_MDIACTIVATE] or
    [WM_MDISETMENU], and that is not the tick of the redraw timer (so also
    the tick of any other timer), is passed to the base class as it came:
    one call with the same three arguments, whose result and whose state
    are those of the delivery. *)
Theorem other_messages_are_forwarded (m : Msg) (w : Wnd) :
  msg_message m ≠ WM_MDICREATE → msg_message m ≠ WM_MDIACTIVATE →
  msg_message m ≠ WM_MDISETMENU →
  ¬ (msg_message m = WM_TIMER ∧ msg_wParam m = m_nRedrawTimer) →
  calls m w =
    [CallBaseWindowProc (msg_message m) (msg_wParam m) (msg_lParam m)] ∧
  result m w =
    (CWnd_WindowProc (msg_message m) (msg_wParam m) (msg_lParam m) w).1 ∧
  deliver m w =
    (CWnd_WindowProc (msg_message m) (msg_wParam m) (msg_lParam m) w).2.
Proof.
  intros H1 H2 H3 H4. proc_open.
  rewrite (proj2 (Z.eqb_neq _ _) H1), (proj2 (Z.eqb_neq _ _) H2),
    (proj2 (Z.eqb_neq _ _) H3).
  cbn [orb].
  destruct (Z.eqb_spec (msg_message m) WM_TIMER) as [Ht | Ht]; [| repeat split].
  destruct (Z.eqb_spec (msg_wParam m) m_nRedrawTimer) as [Hid | Hid];
    [tauto | repeat split].
Qed.

(** Except for [WM_MDISETMENU], the procedure never swallows a message:
    the last call it makes is the one of the base class, with the
    arguments it was given, and it returns what that call returned. *)
Theorem base_is_called_last (m : Msg) (w : Wnd) :
  msg_message m ≠ WM_MDISETMENU →
  ∃ (before : list call) (w' : Wnd),
    calls m w =
      before ++ [CallBaseWindowProc (msg_message m) (msg_wParam m) (msg_lParam m)] ∧
    (∀ x y z, CallBaseWindowProc x y z ∉ before) ∧
    result m w =
      (CWnd_WindowProc (msg_message m) (msg_wParam m) (msg_lParam m) w').1 ∧
    deliver m w =
      (CWnd_WindowProc (msg_message m) (msg_wParam m) (msg_lParam m) w').2.
Proof.
  intros Hm. proc_open.
  rewrite (proj2 (Z.eqb_neq _ _) Hm).
  destruct ((msg_message m =? WM_MDICREATE) || (msg_message m =? WM_MDIACTIVATE)).
  - cbn.
    destruct (negb (env_bMaximized (msg_env m) =? 0)
              || (msg_message m =? WM_MDICREATE)
                 && (env_hwndActive (msg_env m) =? NULL)); cbn.
    + destruct (env_SetTimer (msg_env m) =? 0); cbn.
      * eexists [_; _], _. repeat split.
        intros x y z Hin. apply list_elem_of_In in Hin. cbn in Hin.
        intuition discriminate.
      * eexists [_; _; _], _. repeat split.
        intros x y z Hin. apply list_elem_of_In in Hin. cbn in Hin.
        intuition discriminate.
    + eexists [_], _. repeat split.
      intros x y z Hin. apply list_elem_of_In in Hin. cbn in Hin.
      intuition discriminate.
  - destruct (msg_message m =? WM_TIMER); [| exists [], w; repeat split;
      intros x y z Hin; apply elem_of_nil in Hin; contradiction].
    destruct (msg_wParam m =? m_nRedrawTimer); cbn.
    + eexists [_; _; _], _. repeat split.
      intros x y z Hin. apply list_elem_of_In in Hin. cbn in Hin.
      intuition discriminate.
    + exists [], w. repeat split.
      intros x y z Hin. apply elem_of_nil in Hin. contradiction.
Qed.

(** The log of a delivery, case by case. *)
Lemma calls_by_case (m : Msg) (w : Wnd) :
  calls m w =
    if (msg_message m =? WM_MDICREATE) || (msg_message m =? WM_MDIACTIVATE) then
      CallSendMessage WM_MDIGETACTIVE 0 ::
      (if negb (env_bMaximized (msg_env m) =? 0)
          || (msg_message m =? WM_MDICREATE) && (env_hwndActive (msg_env m) =? NULL)
       then CallSetTimer m_nRedrawTimer USER_TIMER_MINIMUM ::
            (if env_SetTimer (msg_env m) =? 0 then [] else [CallSetRedraw false])
       else []) ++
      [CallBaseWindowProc (msg_message m) (msg_wParam m) (msg_lParam m)]
    else if msg_message m =? WM_MDISETMENU then
      [CallSetMenuBarState AFX_MBS_HIDDEN; CallAttachMenu (msg_wParam m)]
    else if msg_message m =? WM_TIMER then
      (if msg_wParam m =? m_nRedrawTimer then
         [CallKillTimer m_nRedrawTimer; CallSetRedraw true;
          CallRedrawWindow (Z.lor RDW_ALLCHILDREN RDW_INVALIDATE)]
       else []) ++
      [CallBaseWindowProc (msg_message m) (msg_wParam m) (msg_lParam m)]
    else [CallBaseWindowProc (msg_message m) (msg_wParam m) (msg_lParam m)].
Proof.
  proc_open.
  destruct ((msg_message m =? WM_MDICREATE) || (msg_message m =? WM_MDIACTIVATE)).
  - cbn.
    destruct (negb (env_bMaximized (msg_env m) =? 0)
              || (msg_message m =? WM_MDICREATE)
                 && (env_hwndActive (msg_env m) =? NULL)); cbn;
      [destruct (env_SetTimer (msg_env m) =? 0) |]; reflexivity.
  - destruct (msg_message m =? WM_MDISETMENU); [reflexivity|].
    destruct (msg_message m =? WM_TIMER); [| reflexivity].
    destruct (msg_wParam m =? m_nRedrawTimer); reflexivity.
Qed.

Ltac log_facts :=
  intros;
  repeat match goal with
         | H : _ ∈ _ |- _ => apply list_elem_of_In in H; cbn in H
         | |- _ ∈ _ => apply list_elem_of_In; cbn
         | |- _ ∉ _ => intros ?
         end;
  intuition (try discriminate; try congruence).

(** The procedure starts and stops no timer but its own.  [SetTimer] is
    called, once, with the identifier 1612 and [USER_TIMER_MINIMUM],
    exactly for a [WM_MDICREATE] or [WM_MDIACTIVATE] that finds the active
    child maximized, or a [WM_MDICREATE] that finds no active child;
    [KillTimer] is called only at the tick of timer 1612; and when
    [SetTimer] returns 0 the [WM_MDICREATE]/[WM_MDIACTIVATE] branch does
    not touch the redraw flag. *)
Theorem timer_is_requested_exactly_when (m : Msg) (w : Wnd) :
  let mdi := msg_message m = WM_MDICREATE ∨ msg_message m = WM_MDIACTIVATE in
  let flicker :=
    env_bMaximized (msg_env m) ≠ 0 ∨
    (msg_message m = WM_MDICREATE ∧ env_hwndActive (msg_env m) = NULL) in
  (∀ id elapse, CallSetTimer id elapse ∈ calls m w →
     id = m_nRedrawTimer ∧ elapse = USER_TIMER_MINIMUM ∧ mdi ∧ flicker) ∧
  (mdi → flicker → CallSetTimer m_nRedrawTimer USER_TIMER_MINIMUM ∈ calls m w) ∧
  (length (filter (λ c, is_SetTimer c = true) (calls m w)) ≤ 1)%nat ∧
  (∀ id, CallKillTimer id ∈ calls m w →
     id = m_nRedrawTimer ∧ msg_message m = WM_TIMER ∧
     msg_wParam m = m_nRedrawTimer) ∧
  (mdi → env_SetTimer (msg_env m) = 0 → ∀ b, CallSetRedraw b ∉ calls m w).
Proof.
  intros mdi flicker. subst mdi flicker. rewrite calls_by_case.
  destruct (Z.eqb_spec (msg_message m) WM_MDICREATE) as [Hc | Hc];
    destruct (Z.eqb_spec (msg_message m) WM_MDIACTIVATE) as [Ha | Ha];
    destruct (Z.eqb_spec (msg_message m) WM_MDISETMENU) as [Hs | Hs];
    destruct (Z.eqb_spec (msg_message m) WM_TIMER) as [Ht | Ht];
    try (match goal with
         | H1 : msg_message m = _, H2 : msg_message m = _ |- _ =>
             exfalso; rewrite H1 in H2; discriminate H2
         end);
    destruct (Z.eqb_spec (msg_wParam m) m_nRedrawTimer) as [Hid | Hid];
    destruct (Z.eqb_spec (env_bMaximized (msg_env m)) 0) as [Hmax | Hmax];
    destruct (Z.eqb_spec (env_hwndActive (msg_env m)) NULL) as [Hact | Hact];
    destruct (Z.eqb_spec (env_SetTimer (msg_env m)) 0) as [Hset | Hset];
    cbn [orb andb negb app];
    (split; [log_facts |]);
    (split; [log_facts |]);
    (split; [cbv; lia |]);
    (split; [log_facts |]);
    log_facts.
Qed.

Lemma switch_off_test (m : Msg) :
  wants_redraw_off m && negb (env_SetTimer (msg_env m) =? 0) = true ↔
  (env_bMaximized (msg_env m) ≠ 0 ∨
   (msg_message m = WM_MDICREATE ∧ env_hwndActive (msg_env m) = NULL)) ∧
  env_SetTimer (msg_env m) ≠ 0.
Proof.
  unfold wants_redraw_off.
  destruct (Z.eqb_spec (env_bMaximized (msg_env m)) 0);
    destruct (Z.eqb_spec (msg_message m) WM_MDICREATE);
    destruct (Z.eqb_spec (env_hwndActive (msg_env m)) NULL);
    destruct (Z.eqb_spec (env_SetTimer (msg_env m)) 0);
    cbn; intuition (try discriminate; try congruence).
Qed.

(** What the procedure itself does keeps flag and timer in step. *)
Lemma before_base_in_step (m : Msg) (w : Wnd) :
  in_step w → in_step (before_base m w).
Proof.
  intros [Hiff Hsub]. unfold in_step.
  destruct (MDIClientProps.mdi_or_not m) as [Hm | Hm].
  - destruct (MDIClientProps.before_base_mdi m w Hm) as [-> ->].
    destruct (wants_redraw_off m && negb (env_SetTimer (msg_env m) =? 0)).
    + split; [| apply union_least; [reflexivity | exact Hsub]].
      split; [intros _ | reflexivity].
      apply elem_of_union_l, elem_of_singleton. reflexivity.
    + split; assumption.
  - destruct (MDIClientProps.tick_or_not m) as [[Ht Hid] | Ht].
    + destruct (MDIClientProps.before_base_tick m w Ht Hid) as (-> & ->).
      split.
      * split; [discriminate|].
        intros [_ H]%elem_of_difference. exfalso. apply H, elem_of_singleton.
        reflexivity.
      * intros x [Hx _]%elem_of_difference. exact (Hsub x Hx).
    + destruct (MDIClientProps.before_base_other m w Hm Ht) as (-> & ->).
      split; assumption.
Qed.

Lemma deliver_in_step (m : Msg) (w : Wnd) :
  base_inert_at CWnd_WindowProc m → in_step w → in_step (deliver m w).
Proof.
  intros Hb Hw. pose proof (before_base_in_step m w Hw) as H.
  unfold in_step in *.
  destruct (MDIClientProps.deliver_inert CWnd_WindowProc m w Hb) as [-> ->].
  exact H.
Qed.

Lemma created_in_step : in_step created.
Proof.
  split; [split; [discriminate | intros H] | intros x H];
    cbn in H; apply not_elem_of_empty in H; contradiction.
Qed.

Lemma run_in_step (ms : list Msg) (w : Wnd) :
  Forall (base_inert_at CWnd_WindowProc) ms → in_step w → in_step (run ms w).
Proof.
  revert w. induction ms as [| m ms IH]; intros w Hms Hw; [exact Hw|].
  apply Forall_cons in Hms as [Hm Hms].
  cbn. apply IH; [exact Hms|]. apply deliver_in_step; assumption.
Qed.

(** Redraw flag and redraw timer stay in step.  Take a created window and
    deliver any messages for each of which the base class leaves redraw
    flag and timers as it finds them: then redraw is off exactly while
    timer 1612 is running, and the window has no other timer.  And
    whatever message comes next, also one the base class does act on, the
    procedure hands the window to the base class in such a state again:
    by itself it never leaves the timer running with redraw on, or redraw
    off without the timer. *)
Theorem redraw_off_exactly_while_timer_runs (ms : list Msg) (m : Msg) :
  Forall (base_inert_at CWnd_WindowProc) ms →
  let w := run ms created in
  ((redraw w = false ↔ m_nRedrawTimer ∈ timers w) ∧
   timers w ⊆ {[m_nRedrawTimer]}) ∧
  ((redraw (before_base m w) = false ↔ m_nRedrawTimer ∈ timers (before_base m w)) ∧
   timers (before_base m w) ⊆ {[m_nRedrawTimer]}).
Proof.
  intros Hms w.
  assert (Hw : in_step w) by exact (run_in_step ms created Hms created_in_step).
  split; [exact Hw | exact (before_base_in_step m w Hw)].
Qed.

(** The procedure itself changes the redraw flag and the timers of the
    window in two cases only: at the tick of timer 1612, where it switches
    redraw on and removes the timer, and at a [WM_MDICREATE] or
    [WM_MDIACTIVATE] that found a maximized child (or, at [WM_MDICREATE],
    no child) and got its timer, where it switches redraw off and has the
    timer running.  For every other message, and in particular for an
    activation whose [SetTimer] failed, it hands the window to the base
    class with both as they were. *)
Theorem redraw_changes_only_with_the_timer (m : Msg) (w : Wnd) :
  redraw (before_base m w) ≠ redraw w ∨ timers (before_base m w) ≠ timers w →
  (msg_message m = WM_TIMER ∧ msg_wParam m = m_nRedrawTimer ∧
   redraw (before_base m w) = true ∧
   timers (before_base m w) = timers w ∖ {[m_nRedrawTimer]}) ∨
  ((msg_message m = WM_MDICREATE ∨ msg_message m = WM_MDIACTIVATE) ∧
   (env_bMaximized (msg_env m) ≠ 0 ∨
    (msg_message m = WM_MDICREATE ∧ env_hwndActive (msg_env m) = NULL)) ∧
   env_SetTimer (msg_env m) ≠ 0 ∧
   redraw (before_base m w) = false ∧
   timers (before_base m w) = {[m_nRedrawTimer]} ∪ timers w).
Proof.
  intros Hchg.
  destruct (MDIClientProps.mdi_or_not m) as [Hm | Hm].
  - right. split; [exact Hm|].
    destruct (MDIClientProps.before_base_mdi m w Hm) as [Hr Ht].
    cbn zeta in Hr, Ht.
    destruct (wants_redraw_off m && negb (env_SetTimer (msg_env m) =? 0)) eqn:Hoff.
    + apply switch_off_test in Hoff as [Hf Hs]. auto.
    + exfalso. destruct Hchg as [H | H]; apply H; assumption.
  - destruct (MDIClientProps.tick_or_not m) as [[Ht Hid] | Ht].
    + left. split; [exact Ht|]. split; [exact Hid|].
      apply (MDIClientProps.before_base_tick m w Ht Hid).
    + exfalso.
      destruct (MDIClientProps.before_base_other m w Hm Ht) as (Hr & Htm).
      destruct Hchg as [H | H]; apply H; assumption.
Qed.

End Base.

(** At a base procedure that executes [WM_SETREDRAW] and is inert for
    the creation of a child: after the first child was created the timer
    runs and redraw is off. *)
Lemma redraw_off_exactly_while_timer_runs_witness :
  redraw (MDIClient.run redrawing_base [msg_create_first] created) = false ↔
  m_nRedrawTimer ∈ timers (MDIClient.run redrawing_base [msg_create_first] created).
Proof.
  refine (proj1 (proj1 (redraw_off_exactly_while_timer_runs redrawing_base
    [msg_create_first] msg_redraw_tick _))).
  repeat constructor.
Defined.

(** The creation of the first child changes the redraw flag, and it is
    the second case. *)
Lemma redraw_changes_only_with_the_timer_witness :
  env_SetTimer (msg_env msg_create_first) ≠ 0 ∧
  redraw (before_base msg_create_first created) = false.
Proof.
  destruct (redraw_changes_only_with_the_timer msg_create_first created)
    as [(H & _) | (_ & _ & Hs & Hr & _)].
  - left. cbn. discriminate.
  - discriminate H.
  - exact (conj Hs Hr).
Defined.

(** The three theorems at a base procedure that answers 7. *)
Lemma setmenu_is_handled_here_witness :
  MDIClientResult.result seven_base (mkMsg (mkEnv 0 0 0) WM_MDISETMENU 99 0) created
    = TRUE.
Proof.
  exact (proj1 (setmenu_is_handled_here seven_base
                  (mkMsg (mkEnv 0 0 0) WM_MDISETMENU 99 0) created eq_refl)).
Defined.

Lemma other_messages_are_forwarded_witness :
  MDIClientResult.result seven_base (mkMsg (mkEnv 0 0 0) WM_TIMER 5 0) created = 7.
Proof.
  refine (proj1 (proj2 (other_messages_are_forwarded seven_base
            (mkMsg (mkEnv 0 0 0) WM_TIMER 5 0) created _ _ _ _)));
    cbn; try discriminate.
  intros [_ H]. discriminate H.
Defined.

Lemma base_is_called_last_witness :
  ∃ before w',
    MDIClient.calls seven_base msg_create_first created =
      before ++ [CallBaseWindowProc WM_MDICREATE 0 0] ∧
    MDIClientResult.result seven_base msg_create_first created
      = (seven_base WM_MDICREATE 0 0 w').1.
Proof.
  destruct (base_is_called_last seven_base msg_create_first created
              ltac:(cbn; discriminate)) as (before & w' & Hc & _ & Hr & _).
  exists before, w'. split; [exact Hc | exact Hr].
Defined.

End MDIClientResultProps.

(** ** Default arguments, [OnFileNew], and operations that only read *)
Module CallDefaultsProps.
Import Decl Call CallDefaults.

(** [OnFileNew<nFiles, nID>] calls [DoFileNew] with [nID] as window
    identifier and [nFiles] as number of panes, in that order, and with
    null pointers for flags, descriptions, prediffer and open parameters;
    it drops the result of [DoFileNew], and whatever the body of
    [DoFileNew] does, no object of the caller is changed: all that is left
    of the call is the frame. *)
Theorem OnFileNew_calls_DoFileNew (Frame : Type) (b : body Frame bool)
    (nFiles nID : Z) (fr : Frame) (h : heap) :
  h !! 0 = None →
  OnFileNew Frame b nFiles nID fr h =
    Some ((b fr [(ArgNumber nID, None); (ArgNumber nFiles, None);
                 (ArgAddress 0, None); (ArgAddress 0, None);
                 (ArgAddress 0, None); (ArgAddress 0, None)]).1.2,
          h).
Proof.
  intros Hnull. unfold OnFileNew.
  change (complete (fun_params DoFileNew) [ArgNumber nID; ArgNumber nFiles])
    with (Some [Given (ArgNumber nID); Given (ArgNumber nFiles);
                Defaulted DefNullptr; Defaulted DefNullptr;
                Defaulted DefNullptr; Defaulted DefNullptr]).
  cbv beta iota.
  change (evaluate (fun_params DoFileNew)
            [Given (ArgNumber nID); Given (ArgNumber nFiles);
             Defaulted DefNullptr; Defaulted DefNullptr;
             Defaulted DefNullptr; Defaulted DefNullptr])
    with (Some [ArgNumber nID; ArgNumber nFiles; ArgAddress 0; ArgAddress 0;
                ArgAddress 0; ArgAddress 0]).
  cbv beta iota zeta. rewrite DeclProps.call_untouched by reflexivity.
  unfold call. cbn [fst snd fmap list_fmap pointee]. rewrite Hnull. reflexivity.
Qed.

(** [OnFileNew<3, 1>] with a body that counts panes: the frame has
    counted three. *)
Lemma OnFileNew_calls_DoFileNew_witness :
  OnFileNew Z counting_body 3 1 0 sample_heap = Some (3, sample_heap).
Proof.
  exact (OnFileNew_calls_DoFileNew Z counting_body 3 1 0 sample_heap eq_refl).
Defined.

End CallDefaultsProps.

(** ** The class hierarchy of the open parameters *)
Module HierarchyProps.
Import Hierarchy.

(** A pointer to a structure of the family converts to a pointer to each
    structure it derives from, with one exception: [OpenAutoFileParams]
    has three base subobjects of class [OpenFileParams], so it does not
    convert to [OpenFileParams] - the type every open operation takes -
    although it converts to the text, table, binary and image
    structures. *)
Theorem auto_params_do_not_convert_to_the_root :
  (∀ c b, derives_from c b = true →
     (converts_to c b = false ↔ c = OpenAutoFileParams ∧ b = OpenFileParams)) ∧
  (∀ c b, converts_to c b = true → derives_from c b = true) ∧
  length (base_subobjects OpenAutoFileParams OpenFileParams) = 3%nat ∧
  filter (λ b, converts_to OpenAutoFileParams b = true) all_classes =
    [OpenTextFileParams; OpenTableFileParams; OpenBinaryFileParams;
     OpenImageFileParams; OpenAutoFileParams].
Proof.
  split; [| split; [| split]].
  - intros c b; destruct c, b; vm_compute; intros H; split;
      try discriminate H; try (intros [? ?]; discriminate);
      try (intros ?; discriminate); auto.
  - intros c b; destruct c, b; vm_compute; intros H;
      try reflexivity; discriminate H.
  - reflexivity.
  - vm_compute. reflexivity.
Qed.

(** Of all the data members of all the structures, read by their plain
    name, one only is ambiguous: [m_strSaveAsPath] in
    [OpenAutoFileParams].  Every other member of every structure,
    inherited or not, is found in exactly one subobject. *)
Theorem only_the_save_path_is_ambiguous (c : cls) (name : string) :
  name ∈ (λ pm : path * member, mem_name pm.2) <$> all_members c →
  (unqualified_access c name = None ↔
   c = OpenAutoFileParams ∧ name = "m_strSaveAsPath") ∧
  (∀ p, unqualified_access c name = Some p →
        (p, name) ∈ (λ pm : path * member, (pm.1, mem_name pm.2))
                      <$> all_members c).
Proof.
  intros Hin.
  destruct c; vm_compute in Hin;
    apply list_elem_of_In in Hin; cbn in Hin;
    repeat (destruct Hin as [<- | Hin]); try contradiction;
    (split;
     [ vm_compute; split;
       [ intros H; try discriminate H; split; reflexivity
       | intros [H1 H2]; try discriminate H1; try discriminate H2; reflexivity ]
     | intros p Hp; vm_compute in Hp; try discriminate Hp;
       injection Hp as <-; apply list_elem_of_In; vm_compute; auto 20 ]).
Qed.

Lemma filter_none {A} (P : A → Prop) `{∀ x, Decision (P x)} (l : list A) :
  Forall (λ x, ¬ P x) l → filter P l = [].
Proof.
  induction 1 as [| x l Hx _ IH]; [reflexivity|].
  rewrite filter_cons_False by exact Hx. exact IH.
Qed.

Ltac not_declared Hnot b name :=
  assert (declares b name = false)
    by (apply bool_decide_eq_false_2; intros Hb; apply Hnot;
        apply list_elem_of_In in Hb; apply list_elem_of_In;
        vm_compute in Hb |- *; tauto).

(** A name that no subobject declares is found nowhere. *)
Lemma lookup_unknown (c : cls) (name : string) :
  name ∉ (λ pm : path * member, mem_name pm.2) <$> all_members c →
  lookup c name = [].
Proof.
  intros Hnot.
  not_declared Hnot OpenFileParams name.
  destruct c;
    [ | not_declared Hnot OpenTextFileParams name
      | not_declared Hnot OpenTextFileParams name;
        not_declared Hnot OpenTableFileParams name
      | not_declared Hnot OpenBinaryFileParams name
      | not_declared Hnot OpenImageFileParams name
      | not_declared Hnot OpenWebPageParams name
      | not_declared Hnot OpenTextFileParams name;
        not_declared Hnot OpenTableFileParams name;
        not_declared Hnot OpenBinaryFileParams name;
        not_declared Hnot OpenImageFileParams name;
        not_declared Hnot OpenAutoFileParams name
      | not_declared Hnot OpenFolderParams name ];
    cbv - [declares];
    repeat match goal with H : declares _ _ = false |- _ => rewrite H; clear H end;
    reflexivity.
Qed.

(** What lookup finds is declared under the name. *)
Lemma lookup_known (c : cls) (name : string) (p : path) :
  p ∈ lookup c name →
  name ∈ (λ pm : path * member, mem_name pm.2) <$> all_members c.
Proof.
  intros Hp.
  destruct (decide (name ∈ (λ pm : path * member, mem_name pm.2)
                             <$> all_members c)) as [Hin | Hnot];
    [exact Hin|].
  rewrite (lookup_unknown c name Hnot) in Hp.
  apply elem_of_nil in Hp. contradiction.
Qed.

(** Member lookup in a structure finds exactly the data members that its
    subobjects declare under the name, in the order of the subobjects: no
    structure of the family hides a member of a base, and a name that no
    subobject declares is found nowhere. *)
Theorem lookup_finds_the_declared_members (c : cls) (name : string) :
  lookup c name =
  (λ pm : path * member, pm.1)
    <$> filter (λ pm : path * member, mem_name pm.2 = name) (all_members c).
Proof.
  destruct (decide (name ∈ (λ pm : path * member, mem_name pm.2)
                             <$> all_members c)) as [Hin | Hnot].
  - destruct c; vm_compute in Hin;
      apply list_elem_of_In in Hin; cbn in Hin;
      repeat (destruct Hin as [<- | Hin]); try contradiction;
      vm_compute; reflexivity.
  - rewrite (filter_none (λ pm : path * member, mem_name pm.2 = name)).
    + exact (lookup_unknown c name Hnot).
    + apply Forall_forall. intros pm Hpm Heq. apply Hnot.
      apply list_elem_of_fmap. exists pm. auto.
Qed.

(** Qualifying a member name with a base class only disambiguates: when
    the plain name already selects a member, every qualified name that is
    well formed selects the same one; and every data member of every
    structure, also each of the three save-as paths of
    [OpenAutoFileParams], is reached by qualifying its name with the class
    that declares it. *)
Theorem qualification_selects_the_same_member (c : cls) (name : string) :
  (∀ b p q, unqualified_access c name = Some p →
            qualified_access c b name = Some q → q = p) ∧
  (∀ p b, p ∈ lookup c name → path_end p = Some b →
          qualified_access c b name = Some p).
Proof.
  split.
  - intros b p q Hp Hq.
    assert (Hin : name ∈ (λ pm : path * member, mem_name pm.2) <$> all_members c).
    { apply (lookup_known c name p). unfold unqualified_access in Hp.
      destruct (lookup c name) as [| p' [| ? ?]]; try discriminate Hp.
      injection Hp as ->. apply list_elem_of_here. }
    destruct c; vm_compute in Hin;
      apply list_elem_of_In in Hin; cbn in Hin;
      repeat (destruct Hin as [<- | Hin]); try contradiction;
      vm_compute in Hp; try discriminate Hp; injection Hp as <-;
      destruct b; vm_compute in Hq; try discriminate Hq;
      injection Hq as <-; reflexivity.
  - intros p b Hp Hb.
    pose proof (lookup_known c name p Hp) as Hin.
    destruct c; vm_compute in Hin;
      apply list_elem_of_In in Hin; cbn in Hin;
      repeat (destruct Hin as [<- | Hin]); try contradiction;
      apply list_elem_of_In in Hp; vm_compute in Hp;
      repeat (destruct Hp as [<- | Hp]); try contradiction;
      vm_compute in Hb; injection Hb as <-; vm_compute; reflexivity.
Qed.

(** The text structure and its line member. *)
Lemma only_the_save_path_is_ambiguous_witness :
  unqualified_access OpenTableFileParams "m_line" ≠ None.
Proof.
  assert (Hin : "m_line" ∈ (λ pm : path * member, mem_name pm.2)
                              <$> all_members OpenTableFileParams)
    by (apply list_elem_of_In; vm_compute; auto).
  intros H.
  apply (proj1 (only_the_save_path_is_ambiguous OpenTableFileParams "m_line" Hin))
    in H.
  destruct H as [H _]. discriminate H.
Defined.

End HierarchyProps.

(** ** Menu flags *)
Module MenusProps.
Import Menus.

(** The three menu flags are independent bits and [MENU_ALL] is their
    union: whichever kinds of frame an icon is marked for, the test
    [menusToApply & flag] answers for each kind whether it was marked,
    and nothing outside [MENU_ALL] is ever set. *)
Theorem menu_flags_are_independent (id icon : Z) (a b c : bool) :
  let item := mkMenuItemIcon id icon (mask_of a b c) in
  applies item MENU_MAINFRM = a ∧
  applies item MENU_FILECMP = b ∧
  applies item MENU_FOLDERCMP = c ∧
  Z.land (menusToApply item) MENU_ALL = menusToApply item ∧
  (menusToApply item = MENU_ALL ↔ a = true ∧ b = true ∧ c = true) ∧
  (applies item MENU_ALL = false ↔ a = false ∧ b = false ∧ c = false).
Proof.
  destruct a, b, c; vm_compute; intuition discriminate.
Qed.

End MenusProps.

(** ** Frame types: a sample *)
Module FrameTypeSampleProps.
Import FrameType Decl FrameTypeSample.

(** The classification by document class never answers [FRAME_OTHER], so
    two kinds share a frame type. *)
Lemma two_kinds_share_a_frame_type_witness :
  ∃ k1 k2, k1 ≠ k2 ∧ by_document k1 = by_document k2.
Proof.
  apply (FrameTypeProps.two_kinds_share_a_frame_type by_document).
  intros k; destruct k; discriminate.
Defined.

End FrameTypeSampleProps.
